(** * The SFT application handlers of the synthetic data generator

    A shallow embedding of [src/distilabel_dataset_generator/apps/sft.py]:
    the five handlers [generate_system_prompt], [generate_sample_dataset],
    [_check_push_to_hub], [generate_dataset] and [push_to_hub].

    The handlers talk to collaborators that live outside the file: the
    progress callback of the UI, the text generation step, the worker
    process and its result queue, and the dataset hub.  Every such call is
    recorded as an [Event]; what the collaborator answers (returns, raises
    or never returns) is read from an environment [Env] that may look at
    everything that happened before the call.  A handler is then a function
    from the history so far to its outcome and the events it emitted. *)

From Stdlib Require Import ZArith QArith String List Bool Lia.
From Stdlib Require Import DecimalString Sorted.
Import ListNotations.

#[local] Open Scope string_scope.
#[local] Open Scope Z_scope.
#[local] Open Scope list_scope.

(** ** Python values *)

(** The exception classes that matter here.  [NonException] stands for the
    classes below [BaseException] but not below [Exception]
    (KeyboardInterrupt, SystemExit), which [except Exception] lets through. *)
Inductive ExnClass : Type :=
| GrError
| KeyError
| ValueError
| IndexError
| OtherException
| NonException.

(** An exception object: its class and [str(e)].  For the KeyError,
    ValueError and IndexError built below the text is indicative only; no
    handler of the file reads it. *)
Record Exn : Type := mkExn { exn_class : ExnClass; exn_str : string }.

Definition is_Exception (e : Exn) : bool :=
  match exn_class e with
  | NonException => false
  | _ => true
  end.

(** [gr.Error(message)] *)
Definition gr_Error (message : string) : Exn := mkExn GrError message.

(** The outcome of a call: a value, a raised exception, or a call that never
    comes back ([Queue.get] on a queue nobody fills, [join] on a worker that
    never exits). *)
Inductive Result (A : Type) : Type :=
| Ok (a : A)
| Raise (e : Exn)
| Blocked.

Arguments Ok {A} a.
Arguments Raise {A} e.
Arguments Blocked {A}.

Definition result_bind {A B} (r : Result A) (f : A -> Result B) : Result B :=
  match r with
  | Ok a => f a
  | Raise e => Raise e
  | Blocked => Blocked
  end.

(** *** Lists and dicts *)

(** [x in xs] on a list of strings. *)
Definition py_in (x : string) (xs : list string) : bool :=
  existsb (String.eqb x) xs.

(** [xs.index(x)]: the first position holding [x], ValueError without one. *)
Fixpoint py_index (x : string) (xs : list string) : Result nat :=
  match xs with
  | [] => Raise (mkExn ValueError (x ++ " is not in list")%string)
  | y :: ys =>
      if String.eqb y x then Ok O
      else result_bind (py_index x ys) (fun i => Ok (S i))
  end.

(** [xs[i]] for a position [i >= 0]. *)
Definition py_getitem {A} (xs : list A) (i : nat) : Result A :=
  match nth_error xs i with
  | Some a => Ok a
  | None => Raise (mkExn IndexError "list index out of range")
  end.

(** [d[key]] on a dict, kept as an association list. *)
Fixpoint dict_getitem {A} (key : string) (d : list (string * A)) : Result A :=
  match d with
  | [] => Raise (mkExn KeyError key)
  | (k, v) :: rest => if String.eqb k key then Ok v else dict_getitem key rest
  end.

(** Truthiness of a string: non-empty. *)
Definition truthy (s : string) : bool :=
  match s with
  | EmptyString => false
  | _ => true
  end.

(** [str(n)] / [f"{n}"] on an int. *)
Definition str_of_int (n : Z) : string := NilZero.string_of_int (Z.to_int n).

(** *** Tables *)

Record Message : Type := mkMessage { role : string; content : string }.

Inductive Cell : Type :=
| CellText (text : string)
| CellMessages (messages : list Message).

Definition Column : Type := list Cell.

(** A pandas DataFrame: its columns in order, each with its label. *)
Record DataFrame : Type := mkDataFrame { df_columns : list (string * Column) }.

Definition column_names (df : DataFrame) : list string :=
  map fst (df_columns df).

Definition columns_labelled (label : string) (df : DataFrame)
  : list (string * Column) :=
  filter (fun c => String.eqb (fst c) label) (df_columns df).

(** [df[[label_1, ..., label_n]]]: for each label in turn every column
    carrying it; KeyError when some label is on no column. *)
Definition df_getitem (labels : list string) (df : DataFrame)
  : Result DataFrame :=
  match filter (fun l => negb (py_in l (column_names df))) labels with
  | [] => Ok (mkDataFrame (flat_map (fun l => columns_labelled l df) labels))
  | missing :: _ => Raise (mkExn KeyError missing)
  end.

Fixpoint unique_names (names : list string) : bool :=
  match names with
  | [] => true
  | n :: rest => negb (py_in n rest) && unique_names rest
  end.

(** A [datasets.Dataset]: its features are a dict, so no two columns share a
    name. *)
Record Dataset : Type := mkDataset {
  ds_table : DataFrame;
  ds_unique : unique_names (column_names ds_table) = true
}.

Definition to_pandas (d : Dataset) : DataFrame := ds_table d.

(** A [Distiset]: configuration name -> split name -> Dataset. *)
Definition DatasetDict : Type := list (string * Dataset).
Definition Distiset : Type := list (string * DatasetDict).

(** ** Calls to the collaborators *)

Inductive Event : Type :=
| EvProgress (fraction : Q) (desc : string)
    (* progress(fraction, desc=desc) *)
| EvGetPromptGenerationStep
    (* get_prompt_generation_step() *)
| EvStepLoad
    (* generate_description.load() *)
| EvStepProcess (system_prompt instruction : string)
    (* next(generate_description.process([{...}]))[0]["generation"] *)
| EvQueueCreate
    (* multiprocessing.Queue() *)
| EvProcessCreate (num_turns num_rows : Z) (system_prompt : string)
    (is_sample : bool)
    (* multiprocessing.Process(target=_run_pipeline, args=(queue, ...)) *)
| EvProcessStart
    (* p.start() *)
| EvIsAlive
    (* p.is_alive() *)
| EvPopenPoll
    (* p._popen.poll() *)
| EvSleep (seconds : Q)
    (* time.sleep(seconds) *)
| EvJoin
    (* p.join() *)
| EvTerminate
    (* p.terminate(): never issued by this file, named to state that *)
| EvQueueGet
    (* result_queue.get() *)
| EvDistisetPush (repo_id : option string) (private include_script : bool)
    (token : option string) (data : DataFrame)
    (* Distiset({"default": Dataset.from_pandas(data)}).push_to_hub(...) *).

Definition History : Type := list Event.

Inductive Outcome : Type :=
| Returns
| Raises (e : Exn)
| Blocks.

(** What the collaborators do.  Each field reads the events that came
    before the call.  The worker process runs [_run_pipeline]
    ([get_pipeline(...).run(use_cache=False)], then [result_queue.put]) on
    its own; the handlers see it through its liveness and through the item
    it left on the queue. *)
Record Env : Type := mkEnv {
  env_outcome : History -> Event -> Outcome;
  env_is_alive : History -> bool;          (* answer of p.is_alive() *)
  env_popen_poll : History -> option Z;    (* answer of p._popen.poll() *)
  env_queue_item : History -> Distiset;    (* what the worker put *)
  env_generation : History -> string       (* first generated text *)
}.

(** ** Handlers as history transformers *)

Definition M (A : Type) : Type := History -> Result A * list Event.

Definition ret {A} (a : A) : M A := fun _ => (Ok a, []).

Definition bind {A B} (m : M A) (f : A -> M B) : M B :=
  fun h =>
    match m h with
    | (Ok a, t1) => let (r, t2) := f a (h ++ t1) in (r, t1 ++ t2)
    | (Raise e, t1) => (Raise e, t1)
    | (Blocked, t1) => (Blocked, t1)
    end.

Definition lift {A} (r : Result A) : M A := fun _ => (r, []).

Definition raise {A} (e : Exn) : M A := lift (Raise e).

(** [try: body  except Exception as e: handler e] *)
Definition try_except {A} (body : M A) (handler : Exn -> M A) : M A :=
  fun h =>
    match body h with
    | (Raise e, t1) =>
        if is_Exception e
        then let (r, t2) := handler e (h ++ t1) in (r, t1 ++ t2)
        else (Raise e, t1)
    | other => other
    end.

Declare Scope handler_scope.
Delimit Scope handler_scope with handler.
Notation "x <- m ;; k" := (bind m (fun x => k))
  (at level 61, m at next level, right associativity) : handler_scope.
Notation "m ;; k" := (bind m (fun _ => k))
  (at level 61, right associativity) : handler_scope.
#[local] Open Scope handler_scope.

Definition result_of {A} (x : Result A * list Event) : Result A := fst x.
Definition emitted {A} (x : Result A * list Event) : list Event := snd x.

Definition is_progress (e : Event) : bool :=
  match e with EvProgress _ _ => true | _ => false end.

(** The fractions passed to the progress callback, in order. *)
Definition progress_fractions (t : list Event) : list Q :=
  flat_map (fun e => match e with EvProgress q _ => [q] | _ => [] end) t.

Definition is_hub_request (e : Event) : bool :=
  match e with EvDistisetPush _ _ _ _ _ => true | _ => false end.

Definition is_reap (e : Event) : bool :=
  match e with EvJoin | EvTerminate => true | _ => false end.

(** [emits_only P m]: on every history, every event of [m] satisfies [P]. *)
Definition emits_only {A} (P : Event -> Prop) (m : M A) : Prop :=
  forall h, Forall P (emitted (m h)).

(** The arguments a worker process is created with. *)
Definition spawned_with (num_turns num_rows : Z) (system_prompt : string)
    (is_sample : bool) (e : Event) : Prop :=
  match e with
  | EvProcessCreate turns rows prompt sample =>
      turns = num_turns /\ rows = num_rows /\ prompt = system_prompt
      /\ sample = is_sample
  | _ => True
  end.

(** ** The handlers of apps/sft.py *)

(** The step function at the head of [generate_dataset]: the estimated
    duration, in seconds, for [num_rows] rows. *)
Definition duration (num_rows : Z) : Z :=
  if num_rows <? 5 then 25
  else if num_rows <? 10 then 60
  else if num_rows <? 30 then 120
  else if num_rows <? 100 then 240
  else if num_rows <? 300 then 600
  else if num_rows <? 1000 then 1200
  else 2400.

Definition total_steps : nat := 100.

(** [(step + 1) / total_steps], as an exact rational.  Python divides two
    ints into the nearest float; rounding keeps the order of these values
    and [100 / 100] is exactly [1.0]. *)
Definition fraction (step : nat) : Q :=
  Z.of_nat (step + 1) # Pos.of_nat total_steps.

(** [_check_push_to_hub(org_name, repo_name)]; [None] is Python's None. *)
Definition _check_push_to_hub (org_name repo_name : option string)
  : Result (option string) :=
  let repo_id :=
    match repo_name, org_name with
    | Some repo, Some org => Some (org ++ "/" ++ repo)%string
    | _, _ => None
    end in
  match repo_id with
  | Some id =>
      if negb (truthy id
               && match org_name with Some s => truthy s | None => false end
               && match repo_name with Some s => truthy s | None => false end)
      then Raise (gr_Error
        "Please provide a `repo_name` and `org_name` to push the dataset to.")
      else Ok repo_id
  | None => Ok repo_id
  end.

Section Handlers.

(** The collaborators. *)
Variable env : Env.

(** The presets of [pipelines/sft.py], imported by the file. *)
Variable DEFAULT_DATASET_DESCRIPTIONS : list string.
Variable DEFAULT_SYSTEM_PROMPTS : list string.
Variable DEFAULT_DATASETS : list DataFrame.
Variable PROMPT_CREATION_PROMPT : string.

(** A call that returns nothing of interest. *)
Definition call (e : Event) : M unit :=
  fun h =>
    match env_outcome env h e with
    | Returns => (Ok tt, [e])
    | Raises x => (Raise x, [e])
    | Blocks => (Blocked, [e])
    end.

(** A call whose answer is read from the environment. *)
Definition query {A} (e : Event) (answer : History -> A) : M A :=
  fun h =>
    match env_outcome env h e with
    | Returns => (Ok (answer h), [e])
    | Raises x => (Raise x, [e])
    | Blocks => (Blocked, [e])
    end.

Definition progress (q : Q) (desc : string) : M unit :=
  call (EvProgress q desc).

Definition generate_system_prompt (dataset_description : string)
  : M string :=
  let generate : M string :=
    progress (1 # 10) "Initializing text generation" ;;
    call EvGetPromptGenerationStep ;;
    progress (4 # 10) "Loading model" ;;
    call EvStepLoad ;;
    progress (7 # 10) "Generating system prompt" ;;
    result <- query (EvStepProcess PROMPT_CREATION_PROMPT
                       dataset_description) (env_generation env) ;;
    progress 1 "System prompt generated" ;;
    ret result in
  if py_in dataset_description DEFAULT_DATASET_DESCRIPTIONS then
    index <- lift (py_index dataset_description
                     DEFAULT_DATASET_DESCRIPTIONS) ;;
    if (index <? length DEFAULT_SYSTEM_PROMPTS)%nat
    then lift (py_getitem DEFAULT_SYSTEM_PROMPTS index)
    else generate
  else generate.

(** The [for step in range(total_steps)] loop, over the steps still to run.
    The test [not p.is_alive() or p._popen.poll() is not None] breaks out;
    [or] evaluates the poll only when the worker is reported alive. *)
Fixpoint polling_loop (num_rows : Z) (steps : list nat) : M unit :=
  match steps with
  | [] => ret tt
  | step :: rest =>
      alive <- query EvIsAlive (env_is_alive env) ;;
      stop <- (if negb alive then ret true
               else code <- query EvPopenPoll (env_popen_poll env) ;;
                    ret (match code with Some _ => true | None => false end)) ;;
      if (stop : bool) then ret tt
      else
        progress (fraction step)
          ("Generating dataset with " ++ str_of_int num_rows
           ++ " rows. Don't close this window.")%string ;;
        call (EvSleep (duration num_rows # Pos.of_nat total_steps)) ;;
        polling_loop num_rows rest
  end.

(** The [try] block of [generate_dataset] with its handler. *)
Definition run_worker (num_rows : Z) : M unit :=
  try_except
    (call EvProcessStart ;;
     polling_loop num_rows (seq 0 total_steps) ;;
     call EvJoin)
    (fun e => raise (gr_Error
       ("An error occurred during dataset generation: " ++ exn_str e)%string)).

Definition generate_dataset (system_prompt : string) (num_turns num_rows : Z)
    (is_sample : bool) : M DataFrame :=
  call EvQueueCreate ;;
  call (EvProcessCreate num_turns num_rows system_prompt is_sample) ;;
  run_worker num_rows ;;
  distiset <- query EvQueueGet (env_queue_item env) ;;
  default <- lift (dict_getitem "default" distiset) ;;
  train <- lift (dict_getitem "train" default) ;;
  outputs <- lift (if num_turns =? 1
                   then df_getitem ["prompt"; "completion"] (to_pandas train)
                   else df_getitem ["messages"] (to_pandas train)) ;;
  let dataframe := outputs in                    (* pd.DataFrame(outputs) *)
  progress 1 "Dataset generation completed" ;;
  ret dataframe.

Definition generate_sample_dataset (system_prompt : string)
  : M DataFrame :=
  let generate : M DataFrame :=
    progress (1 # 10) "Initializing sample dataset generation" ;;
    result <- generate_dataset system_prompt 1 1 true ;;
    progress 1 "Sample dataset generated" ;;
    ret result in
  if py_in system_prompt DEFAULT_SYSTEM_PROMPTS then
    index <- lift (py_index system_prompt DEFAULT_SYSTEM_PROMPTS) ;;
    if (index <? length DEFAULT_DATASETS)%nat
    then lift (py_getitem DEFAULT_DATASETS index)
    else generate
  else generate.

Definition push_to_hub (dataframe : DataFrame) (private : bool)
    (org_name repo_name : option string) (oauth_token : option string)
  : M DataFrame :=
  repo_id <- lift (_check_push_to_hub org_name repo_name) ;;
  call (EvDistisetPush repo_id private true oauth_token dataframe) ;;
  ret dataframe.

End Handlers.

(** ** Sample worlds

    Concrete collaborators and presets, on which the statements below are
    run. *)

Definition is_alive_call (e : Event) : bool :=
  match e with EvIsAlive => true | _ => false end.

Definition sample_table : DataFrame :=
  mkDataFrame [("prompt", [CellText "What is an acid?"]);
               ("completion", [CellText "A proton donor."]);
               ("model_name", [CellText "llama"])].

Definition sample_chat_table : DataFrame :=
  mkDataFrame [("messages",
                [CellMessages [mkMessage "user" "What is an acid?";
                               mkMessage "assistant" "A proton donor."]]);
               ("model_name", [CellText "llama"])].

Definition sample_distiset : Distiset :=
  [("default", [("train", mkDataset sample_table eq_refl)])].

Definition sample_chat_distiset : Distiset :=
  [("default", [("train", mkDataset sample_chat_table eq_refl)])].

(** Nothing raises; the worker is alive at the first [polls] liveness checks
    and gone afterwards, leaving [item] on the queue. *)
Definition calm_env (polls : nat) (item : Distiset) : Env :=
  mkEnv (fun _ _ => Returns)
        (fun h => (length (filter is_alive_call h) <? polls)%nat)
        (fun _ => None)
        (fun _ => item)
        (fun _ => "You are a chemistry tutor.").

(** The worker never exits on its own and the progress callback raises
    (the browser tab was closed, say). *)
Definition lost_client : Exn := mkExn OtherException "client disconnected".

Definition lost_client_env : Env :=
  mkEnv (fun _ e => if is_progress e then Raises lost_client else Returns)
        (fun _ => true)
        (fun _ => None)
        (fun _ => sample_distiset)
        (fun _ => "You are a chemistry tutor.").

Definition sample_descriptions : list string :=
  ["A chemistry assistant."; "A customer support assistant."].

Definition sample_prompts : list string :=
  ["You are a chemistry tutor."; "You are a support agent."].

Definition sample_datasets : list DataFrame :=
  [mkDataFrame [("prompt", [CellText "What is an acid?"]);
                ("completion", [CellText "A proton donor."])];
   mkDataFrame [("prompt", [CellText "My order is late."]);
                ("completion", [CellText "Let me check."])]].

(** ** The pipeline script upload

    [upload_pipeline_code] has one collaborator, [huggingface_hub.upload_file],
    taken as a parameter: it answers a request by returning, raising or
    blocking. *)

Record UploadRequest : Type := mkUploadRequest {
  up_content : string;           (* the bytes behind path_or_fileobj *)
  up_path_in_repo : string;
  up_repo_id : string;
  up_repo_type : string;
  up_token : option string;
  up_commit_message : string
}.

(** [f"{x}"] for a name that is a string or None. *)
Definition format_name (x : option string) : string :=
  match x with
  | Some s => s
  | None => "None"
  end.

(** [upload_pipeline_code(pipeline_code, org_name, repo_name, oauth_token)];
    a Python str is kept as its UTF-8 bytes, so [encode("utf-8")] leaves it
    as it is. *)
Definition upload_pipeline_code (upload_file : UploadRequest -> Outcome)
    (pipeline_code : string) (org_name repo_name : option string)
    (oauth_token : option string) : Result unit * list UploadRequest :=
  let f := pipeline_code in
  let request :=
    mkUploadRequest f "pipeline.py"
      (format_name org_name ++ "/" ++ format_name repo_name)%string
      "dataset" oauth_token "Include pipeline script" in
  (match upload_file request with
   | Returns => Ok tt
   | Raises e => Raise e
   | Blocks => Blocked
   end, [request]).

(** ** Observations on runs *)




Definition count_events (p : Event -> bool) (t : list Event) : nat :=
  length (filter p t).

Definition is_queue_create (e : Event) : bool :=
  match e with EvQueueCreate => true | _ => false end.

Definition is_spawn (e : Event) : bool :=
  match e with EvProcessCreate _ _ _ _ => true | _ => false end.

Definition is_start (e : Event) : bool :=
  match e with EvProcessStart => true | _ => false end.

Definition is_join (e : Event) : bool :=
  match e with EvJoin => true | _ => false end.

Definition is_queue_get (e : Event) : bool :=
  match e with EvQueueGet => true | _ => false end.

(** The calls the polling loop makes. *)
Definition is_loop_event (e : Event) : bool :=
  match e with
  | EvIsAlive | EvPopenPoll | EvProgress _ _ | EvSleep _ => true
  | _ => false
  end.

(** Calls to the text generation step. *)
Definition is_model_call (e : Event) : bool :=
  match e with
  | EvGetPromptGenerationStep | EvStepLoad | EvStepProcess _ _ => true
  | _ => false
  end.

(** Calls to the worker process and its queue. *)
Definition is_worker_call (e : Event) : bool :=
  match e with
  | EvQueueCreate | EvProcessCreate _ _ _ _ | EvProcessStart | EvIsAlive
  | EvPopenPoll | EvJoin | EvTerminate | EvQueueGet => true
  | _ => false
  end.

(** The arguments of [time.sleep], in order. *)
Definition sleep_seconds (t : list Event) : list Q :=
  flat_map (fun e => match e with EvSleep s => [s] | _ => [] end) t.

Definition total_seconds (l : list Q) : Q := fold_right Qplus 0%Q l.

(** The events of a run of [generate_dataset] in which nothing goes wrong,
    around the events [loop] of its polling loop. *)
Definition complete_run (num_turns num_rows : Z) (system_prompt : string)
    (is_sample : bool) (loop : list Event) : list Event :=
  [EvQueueCreate;
   EvProcessCreate num_turns num_rows system_prompt is_sample;
   EvProcessStart]
  ++ loop
  ++ [EvJoin; EvQueueGet; EvProgress 1 "Dataset generation completed"].




(** The worker never exits on its own and nothing raises. *)
Definition slow_worker_env : Env :=
  mkEnv (fun _ _ => Returns)
        (fun _ => true)
        (fun _ => None)
        (fun _ => sample_distiset)
        (fun _ => "You are a chemistry tutor.").

(** Preset lists that are not of one length: a second description without
    a prompt of its own, a second prompt without a sample of its own. *)
Definition short_prompts : list string :=
  ["You are a chemistry tutor."].

Definition short_datasets : list DataFrame :=
  [mkDataFrame [("prompt", [CellText "My order is late."]);
                ("completion", [CellText "Let me check."])]].

(** Nothing raises and the text generation step writes a prompt that is no
    preset. *)
Definition writing_env : Env :=
  mkEnv (fun _ _ => Returns)
        (fun _ => false)
        (fun _ => None)
        (fun _ => sample_distiset)
        (fun _ => "You are a patient helpdesk agent.").

(** ** The call an exception comes from *)

(** The events [t] that followed the history [h] end with a call that
    satisfies [P] and raised [e]. *)
Definition at_call (env : Env) (P : Event -> Prop) (h : History)
    (t : list Event) (e : Exn) : Prop :=
  exists pre ev,
    t = pre ++ [ev] /\ env_outcome env (h ++ pre) ev = Raises e /\ P ev.

(** [raises_with R m]: when [m] ends with an exception, [R] relates the
    history, the events of the run and the exception. *)
Definition raises_with {A} (R : History -> list Event -> Exn -> Prop)
    (m : M A) : Prop :=
  forall h e, result_of (m h) = Raise e -> R h (emitted (m h)) e.

Definition prefix_stable (R : History -> list Event -> Exn -> Prop) : Prop :=
  forall h t1 t2 e, R (h ++ t1) t2 e -> R h (t1 ++ t2) e.




(** * Properties *)

(** ** The step function *)

Lemma duration_values (n : Z) :
  (n < 5 /\ duration n = 25) \/
  (5 <= n < 10 /\ duration n = 60) \/
  (10 <= n < 30 /\ duration n = 120) \/
  (30 <= n < 100 /\ duration n = 240) \/
  (100 <= n < 300 /\ duration n = 600) \/
  (300 <= n < 1000 /\ duration n = 1200) \/
  (1000 <= n /\ duration n = 2400).
Proof.
  unfold duration.
  repeat match goal with
         | |- context [?a <? ?b] => destruct (Z.ltb_spec a b)
         end; lia.
Qed.

(** C7: the estimated duration never decreases when the number of rows
    grows: [a <= b] gives [duration a <= duration b]. *)
Theorem duration_monotone (a b : Z) :
  a <= b -> duration a <= duration b.
Proof.
  intros Hab.
  destruct (duration_values a) as [H|[H|[H|[H|[H|[H|H]]]]]];
    destruct (duration_values b) as [K|[K|[K|[K|[K|[K|K]]]]]]; lia.
Qed.

Lemma duration_monotone_witness : 4 <= 1000 /\ duration 4 <= duration 1000.
Proof.
  split; [lia | apply (duration_monotone 4 1000); lia].
Defined.

(** C10: for a row count in the range the UI enforces, [1 <= num_rows <= 500],
    the duration is one of 25, 60, 120, 240, 600, 1200; the last test
    [num_rows < 1000] succeeds whenever it is reached, so the final [else]
    (duration 2400) is never taken. *)
Theorem duration_in_ui_range (num_rows : Z) :
  1 <= num_rows <= 500 ->
  In (duration num_rows) [25; 60; 120; 240; 600; 1200]
  /\ (num_rows <? 1000) = true
  /\ duration num_rows <> 2400.
Proof.
  intros Hrange. split; [|split].
  - destruct (duration_values num_rows) as [H|[H|[H|[H|[H|[H|H]]]]]];
      destruct H as [Hn ->]; simpl; auto 10; lia.
  - apply Z.ltb_lt. lia.
  - destruct (duration_values num_rows) as [H|[H|[H|[H|[H|[H|H]]]]]]; lia.
Qed.

Lemma duration_in_ui_range_witness :
  1 <= 500 <= 500
  /\ In (duration 500) [25; 60; 120; 240; 600; 1200]
  /\ (500 <? 1000) = true
  /\ duration 500 <> 2400.
Proof.
  split; [lia | apply (duration_in_ui_range 500); lia].
Defined.

(** ** Reading a handler run *)

Lemma bind_run {A B} (m : M A) (f : A -> M B) (h : History) :
  bind m f h =
  match m h with
  | (Ok a, t1) => (result_of (f a (h ++ t1)), t1 ++ emitted (f a (h ++ t1)))
  | (Raise e, t1) => (Raise e, t1)
  | (Blocked, t1) => (Blocked, t1)
  end.
Proof.
  unfold bind, result_of, emitted.
  destruct (m h) as [[a|e|] t1]; try reflexivity.
  destruct (f a (h ++ t1)); reflexivity.
Qed.

Lemma bind_Ok_inv {A B} (m : M A) (f : A -> M B) (h : History) b t :
  bind m f h = (Ok b, t) ->
  exists a t1 t2,
    m h = (Ok a, t1) /\ f a (h ++ t1) = (Ok b, t2) /\ t = t1 ++ t2.
Proof.
  unfold bind. destruct (m h) as [[a|e|] t1]; try discriminate.
  destruct (f a (h ++ t1)) as [r t2] eqn:Hf.
  intros [= -> <-]. now exists a, t1, t2.
Qed.

Lemma lift_Ok_inv {A} (r : Result A) (h : History) a t :
  lift r h = (Ok a, t) -> r = Ok a /\ t = [].
Proof. unfold lift. now intros [= -> <-]. Qed.

Lemma call_run (env : Env) (e : Event) (h : History) :
  emitted (call env e h) = [e]
  /\ (forall u, result_of (call env e h) = Ok u ->
      env_outcome env h e = Returns).
Proof.
  unfold call, emitted, result_of.
  destruct (env_outcome env h e); simpl; split; auto; discriminate.
Qed.

Lemma call_Ok_inv (env : Env) (e : Event) (h : History) u t :
  call env e h = (Ok u, t) -> env_outcome env h e = Returns /\ t = [e].
Proof.
  unfold call. destruct (env_outcome env h e); intros [= <-]; try discriminate.
  all: try (split; congruence).
Qed.

Lemma progress_fractions_app (t1 t2 : list Event) :
  progress_fractions (t1 ++ t2) = progress_fractions t1 ++ progress_fractions t2.
Proof. unfold progress_fractions. apply flat_map_app. Qed.

(** ** Membership and position in the preset lists *)

Lemma py_in_In (x : string) (xs : list string) :
  py_in x xs = true <-> In x xs.
Proof.
  unfold py_in. rewrite existsb_exists. split.
  - intros [y [Hy Heq]]. apply String.eqb_eq in Heq. now subst.
  - intros Hin. exists x. split; [assumption | apply String.eqb_refl].
Qed.

(** [index] finds the first position of a member. *)
Lemma py_index_first (x : string) (xs : list string) :
  In x xs ->
  exists i,
    py_index x xs = Ok i
    /\ nth_error xs i = Some x
    /\ (i < length xs)%nat
    /\ (forall j, (j < i)%nat -> nth_error xs j <> Some x).
Proof.
  induction xs as [|y ys IH]; simpl; [intros []|].
  intros Hin. destruct (String.eqb_spec y x) as [->|Hne].
  - exists O. repeat split; auto; lia.
  - destruct Hin as [Heq|Hin]; [contradiction|].
    destruct (IH Hin) as (i & Hi & Hnth & Hlt & Hfirst).
    exists (S i). rewrite Hi. simpl. repeat split; auto; try lia.
    intros [|j] Hj; simpl; [congruence | apply Hfirst; lia].
Qed.

(** ** Publishing *)

Lemma check_push_to_hub_None (org_name repo_name : option string) :
  org_name = None \/ repo_name = None ->
  _check_push_to_hub org_name repo_name = Ok None.
Proof.
  intros [-> | ->]; [destruct repo_name | destruct org_name]; reflexivity.
Qed.

(** With both names given and one of them empty the check raises. *)
Lemma check_push_to_hub_empty (org repo : string) :
  org = "" \/ repo = "" ->
  exists message,
    _check_push_to_hub (Some org) (Some repo) = Raise (gr_Error message).
Proof.
  intros H. unfold _check_push_to_hub. eexists.
  replace (truthy (org ++ "/" ++ repo)%string && truthy org && truthy repo)
    with false; [reflexivity|].
  destruct H as [-> | ->]; simpl;
    [reflexivity | now rewrite !andb_false_r].
Qed.

(** A rejected push emits nothing: the hub is not contacted. *)
Lemma push_to_hub_rejected_silent (env : Env) (dataframe : DataFrame)
    (private : bool) (org_name repo_name token : option string)
    (h : History) (e : Exn) :
  _check_push_to_hub org_name repo_name = Raise e ->
  push_to_hub env dataframe private org_name repo_name token h = (Raise e, []).
Proof.
  intros Hcheck. unfold push_to_hub. rewrite bind_run.
  unfold lift. now rewrite Hcheck.
Qed.

(** C1 (the code departs from the claim): with the organization absent
    ([None], the default of the parameter) the check raises nothing and
    returns [None]; [push_to_hub] then calls the hub with [repo_id = None]. *)
Theorem push_to_hub_without_org_reaches_hub :
  let run :=
    push_to_hub (calm_env 0 sample_distiset) sample_table true
      None (Some "my-distiset") None [] in
  _check_push_to_hub None (Some "my-distiset") = Ok None
  /\ run = (Ok sample_table,
            [EvDistisetPush None true true None sample_table])
  /\ existsb is_hub_request (emitted run) = true.
Proof. repeat split. Qed.

(** The same on every world: an absent name is never rejected. *)
Lemma push_to_hub_absent_name_reaches_hub (env : Env) (dataframe : DataFrame)
    (private : bool) (org_name repo_name token : option string)
    (h : History) :
  org_name = None \/ repo_name = None ->
  emitted (push_to_hub env dataframe private org_name repo_name token h)
  = [EvDistisetPush None private true token dataframe].
Proof.
  intros Habsent. unfold push_to_hub. rewrite bind_run.
  unfold lift at 1. rewrite (check_push_to_hub_None _ _ Habsent).
  rewrite bind_run. simpl.
  unfold call. destruct (env_outcome env _ _); reflexivity.
Qed.

(** C9: a call of [push_to_hub] that returns, returns its argument
    [dataframe] as it was; the table handed to the hub is that same table. *)
Theorem push_to_hub_returns_argument (env : Env) (dataframe : DataFrame)
    (private : bool) (org_name repo_name token : option string)
    (h : History) (returned : DataFrame) (t : list Event) :
  push_to_hub env dataframe private org_name repo_name token h
    = (Ok returned, t) ->
  returned = dataframe
  /\ exists repo_id,
       t = [EvDistisetPush repo_id private true token dataframe].
Proof.
  unfold push_to_hub. intros Hrun.
  apply bind_Ok_inv in Hrun as (repo_id & t1 & t2 & Hcheck & Hrest & ->).
  apply lift_Ok_inv in Hcheck as [_ ->].
  apply bind_Ok_inv in Hrest as (u & t3 & t4 & Hcall & Hret & ->).
  apply call_Ok_inv in Hcall as [_ ->].
  unfold ret in Hret. injection Hret as <- <-.
  split; [reflexivity | now exists repo_id].
Qed.

Lemma push_to_hub_returns_argument_witness :
  push_to_hub (calm_env 0 sample_distiset) sample_table true
    (Some "argilla") (Some "my-distiset") (Some "hf_token") []
  = (Ok sample_table,
     [EvDistisetPush (Some "argilla/my-distiset") true true
        (Some "hf_token") sample_table])
  /\ sample_table = sample_table
  /\ exists repo_id,
       [EvDistisetPush (Some "argilla/my-distiset") true true
          (Some "hf_token") sample_table]
       = [EvDistisetPush repo_id true true (Some "hf_token") sample_table].
Proof.
  split; [reflexivity|].
  apply (push_to_hub_returns_argument (calm_env 0 sample_distiset)
           sample_table true (Some "argilla") (Some "my-distiset")
           (Some "hf_token") []).
  reflexivity.
Defined.

(** ** The preset short-circuits *)

Section Presets.

Variable env : Env.
Variable DEFAULT_DATASET_DESCRIPTIONS : list string.
Variable DEFAULT_SYSTEM_PROMPTS : list string.
Variable DEFAULT_DATASETS : list DataFrame.
Variable PROMPT_CREATION_PROMPT : string.

(** C5 (as the code has it): a description of the preset list is looked up
    at its first position.  When the list of preset prompts has an entry at
    that position, [generate_system_prompt] returns that entry and emits no
    event at all: neither the text generation step nor the progress
    callback is called.  When it has none (the guard [index < len(...)]
    fails), the call goes on as for a description that is no preset. *)
Theorem generate_system_prompt_preset (description : string) (h : History) :
  In description DEFAULT_DATASET_DESCRIPTIONS ->
  exists index : nat,
    nth_error DEFAULT_DATASET_DESCRIPTIONS index = Some description
    /\ (forall j, (j < index)%nat ->
          nth_error DEFAULT_DATASET_DESCRIPTIONS j <> Some description)
    /\ (forall prompt,
          nth_error DEFAULT_SYSTEM_PROMPTS index = Some prompt ->
          generate_system_prompt env DEFAULT_DATASET_DESCRIPTIONS
            DEFAULT_SYSTEM_PROMPTS PROMPT_CREATION_PROMPT description h
          = (Ok prompt, []))
    /\ (nth_error DEFAULT_SYSTEM_PROMPTS index = None ->
        generate_system_prompt env DEFAULT_DATASET_DESCRIPTIONS
          DEFAULT_SYSTEM_PROMPTS PROMPT_CREATION_PROMPT description h
        = generate_system_prompt env [] DEFAULT_SYSTEM_PROMPTS
            PROMPT_CREATION_PROMPT description h).
Proof.
  intros Hin.
  destruct (py_index_first _ _ Hin) as (index & Hindex & Hnth & Hlt & Hfirst).
  exists index. repeat split; auto.
  - intros prompt Hprompt.
    assert (Hbound : (index < length DEFAULT_SYSTEM_PROMPTS)%nat)
      by (apply nth_error_Some; congruence).
    unfold generate_system_prompt.
    apply py_in_In in Hin. rewrite Hin.
    rewrite bind_run. unfold lift at 1. rewrite Hindex.
    apply Nat.ltb_lt in Hbound. rewrite Hbound.
    unfold lift, py_getitem. now rewrite Hprompt.
  - intros Hnone. apply nth_error_None in Hnone.
    apply Nat.ltb_ge in Hnone.
    unfold generate_system_prompt.
    apply py_in_In in Hin. rewrite Hin.
    unfold bind at 1. unfold lift at 1. rewrite Hindex, Hnone.
    cbv beta iota zeta. rewrite app_nil_r. cbn [py_in existsb app].
    destruct (bind _ _ h); reflexivity.
Qed.

(** C6 (as the code has it): a system prompt of the preset list is looked
    up at its first position.  When the list of preset samples has an entry
    at that position, [generate_sample_dataset] returns that entry and
    emits no event at all: no queue, no worker process, no progress call.
    When it has none (the guard [index < len(...)] fails), the call goes on
    as for a prompt that is no preset. *)
Theorem generate_sample_dataset_preset (system_prompt : string)
    (h : History) :
  In system_prompt DEFAULT_SYSTEM_PROMPTS ->
  exists index : nat,
    nth_error DEFAULT_SYSTEM_PROMPTS index = Some system_prompt
    /\ (forall j, (j < index)%nat ->
          nth_error DEFAULT_SYSTEM_PROMPTS j <> Some system_prompt)
    /\ (forall sample,
          nth_error DEFAULT_DATASETS index = Some sample ->
          generate_sample_dataset env DEFAULT_SYSTEM_PROMPTS DEFAULT_DATASETS
            system_prompt h
          = (Ok sample, []))
    /\ (nth_error DEFAULT_DATASETS index = None ->
        generate_sample_dataset env DEFAULT_SYSTEM_PROMPTS DEFAULT_DATASETS
          system_prompt h
        = generate_sample_dataset env [] DEFAULT_DATASETS system_prompt h).
Proof.
  intros Hin.
  destruct (py_index_first _ _ Hin) as (index & Hindex & Hnth & Hlt & Hfirst).
  exists index. repeat split; auto.
  - intros sample Hsample.
    assert (Hbound : (index < length DEFAULT_DATASETS)%nat)
      by (apply nth_error_Some; congruence).
    unfold generate_sample_dataset.
    apply py_in_In in Hin. rewrite Hin.
    rewrite bind_run. unfold lift at 1. rewrite Hindex.
    apply Nat.ltb_lt in Hbound. rewrite Hbound.
    unfold lift, py_getitem. now rewrite Hsample.
  - intros Hnone. apply nth_error_None in Hnone.
    apply Nat.ltb_ge in Hnone.
    unfold generate_sample_dataset.
    apply py_in_In in Hin. rewrite Hin.
    unfold bind at 1. unfold lift at 1. rewrite Hindex, Hnone.
    cbv beta iota zeta. rewrite app_nil_r. cbn [py_in existsb app].
    destruct (bind _ _ h); reflexivity.
Qed.

End Presets.

Lemma generate_system_prompt_preset_witness :
  In "A customer support assistant." sample_descriptions
  /\ generate_system_prompt (calm_env 0 sample_distiset)
       sample_descriptions sample_prompts "Write a system prompt."
       "A customer support assistant." []
     = (Ok "You are a support agent.", [])
  /\ exists index : nat,
       nth_error sample_descriptions index
         = Some "A customer support assistant."
       /\ (forall j, (j < index)%nat ->
             nth_error sample_descriptions j
               <> Some "A customer support assistant.")
       /\ (forall prompt,
             nth_error sample_prompts index = Some prompt ->
             generate_system_prompt (calm_env 0 sample_distiset)
               sample_descriptions sample_prompts "Write a system prompt."
               "A customer support assistant." []
             = (Ok prompt, []))
       /\ (nth_error sample_prompts index = None ->
           generate_system_prompt (calm_env 0 sample_distiset)
             sample_descriptions sample_prompts "Write a system prompt."
             "A customer support assistant." []
           = generate_system_prompt (calm_env 0 sample_distiset) []
               sample_prompts "Write a system prompt."
               "A customer support assistant." []).
Proof.
  assert (Hin : In "A customer support assistant." sample_descriptions)
    by (simpl; auto).
  split; [exact Hin | split; [reflexivity|]].
  exact (generate_system_prompt_preset (calm_env 0 sample_distiset)
           sample_descriptions sample_prompts "Write a system prompt."
           "A customer support assistant." [] Hin).
Defined.

(** C5 as stated fails: with two preset descriptions and one preset prompt,
    the second description is a member of the preset list, and yet the
    text generation step is obtained, loaded and run, and the result is the
    text it wrote, which is no preset prompt. *)
Lemma generate_system_prompt_unpaired_preset :
  let run :=
    generate_system_prompt writing_env sample_descriptions short_prompts
      "Write a system prompt." "A customer support assistant." [] in
  In "A customer support assistant." sample_descriptions
  /\ run
     = (Ok "You are a patient helpdesk agent.",
        [EvProgress (1 # 10) "Initializing text generation";
         EvGetPromptGenerationStep;
         EvProgress (4 # 10) "Loading model";
         EvStepLoad;
         EvProgress (7 # 10) "Generating system prompt";
         EvStepProcess "Write a system prompt."
           "A customer support assistant.";
         EvProgress 1 "System prompt generated"])
  /\ ~ In "You are a patient helpdesk agent." short_prompts.
Proof.
  intros run. split; [simpl; auto | split; [reflexivity|]].
  simpl. intros [H|[]]. discriminate.
Qed.

Lemma generate_sample_dataset_preset_witness :
  In "You are a support agent." sample_prompts
  /\ generate_sample_dataset (calm_env 0 sample_distiset)
       sample_prompts sample_datasets "You are a support agent." []
     = (Ok (mkDataFrame [("prompt", [CellText "My order is late."]);
                         ("completion", [CellText "Let me check."])]), [])
  /\ exists index : nat,
       nth_error sample_prompts index = Some "You are a support agent."
       /\ (forall j, (j < index)%nat ->
             nth_error sample_prompts j <> Some "You are a support agent.")
       /\ (forall sample,
             nth_error sample_datasets index = Some sample ->
             generate_sample_dataset (calm_env 0 sample_distiset)
               sample_prompts sample_datasets "You are a support agent." []
             = (Ok sample, []))
       /\ (nth_error sample_datasets index = None ->
           generate_sample_dataset (calm_env 0 sample_distiset)
             sample_prompts sample_datasets "You are a support agent." []
           = generate_sample_dataset (calm_env 0 sample_distiset) []
               sample_datasets "You are a support agent." []).
Proof.
  assert (Hin : In "You are a support agent." sample_prompts)
    by (simpl; auto).
  split; [exact Hin | split; [reflexivity|]].
  exact (generate_sample_dataset_preset (calm_env 0 sample_distiset)
           sample_prompts sample_datasets "You are a support agent." [] Hin).
Defined.

(** C6 as stated fails: with two preset prompts and one preset sample, the
    second prompt is a member of the preset list, and yet a queue and a
    worker process are created for it and the result is the table the
    worker produced, which is no preset sample. *)
Lemma generate_sample_dataset_unpaired_preset :
  let run :=
    generate_sample_dataset (calm_env 0 sample_distiset) sample_prompts
      short_datasets "You are a support agent." [] in
  In "You are a support agent." sample_prompts
  /\ run
     = (Ok (mkDataFrame [("prompt", [CellText "What is an acid?"]);
                         ("completion", [CellText "A proton donor."])]),
        [EvProgress (1 # 10) "Initializing sample dataset generation";
         EvQueueCreate;
         EvProcessCreate 1 1 "You are a support agent." true;
         EvProcessStart; EvIsAlive; EvJoin; EvQueueGet;
         EvProgress 1 "Dataset generation completed";
         EvProgress 1 "Sample dataset generated"])
  /\ ~ In (mkDataFrame [("prompt", [CellText "What is an acid?"]);
                        ("completion", [CellText "A proton donor."])])
         short_datasets.
Proof.
  intros run. split; [simpl; auto | split; [reflexivity|]].
  simpl. intros [H|[]]. discriminate.
Qed.

(** ** Selecting columns *)

Lemma filter_nil_all {A} (f : A -> bool) (l : list A) :
  filter f l = [] -> forall x, In x l -> f x = false.
Proof.
  induction l as [|a l IH]; simpl; [intros _ x []|].
  destruct (f a) eqn:Hfa; [discriminate|].
  intros Hnil x [<-|Hin]; auto.
Qed.

Lemma unlabelled_filter (label : string) (cols : list (string * Column)) :
  py_in label (map fst cols) = false ->
  filter (fun c => String.eqb (fst c) label) cols = [].
Proof.
  induction cols as [|[k v] cols IH]; simpl; [reflexivity|].
  rewrite orb_false_iff. intros [Hk Hrest].
  rewrite String.eqb_sym, Hk. now apply IH.
Qed.

(** With unique labels, a label that is there selects one column. *)
Lemma columns_labelled_unique (label : string) (df : DataFrame) :
  unique_names (column_names df) = true ->
  py_in label (column_names df) = true ->
  map fst (columns_labelled label df) = [label].
Proof.
  unfold columns_labelled, column_names.
  induction (df_columns df) as [|[k v] cols IH]; simpl; [discriminate|].
  rewrite andb_true_iff, negb_true_iff. intros [Hfresh Huniq] Hin.
  destruct (String.eqb_spec k label) as [->|Hne]; simpl.
  - now rewrite (unlabelled_filter _ _ Hfresh).
  - apply IH; [assumption|].
    apply orb_true_iff in Hin as [Heq|Hin]; [|assumption].
    apply String.eqb_eq in Heq. congruence.
Qed.

Lemma df_getitem_names (labels : list string) (df out : DataFrame) :
  unique_names (column_names df) = true ->
  df_getitem labels df = Ok out ->
  column_names out = labels.
Proof.
  intros Huniq. unfold df_getitem.
  destruct (filter _ labels) eqn:Hmissing; [|discriminate].
  intros [= <-]. unfold column_names at 1. simpl.
  pose proof (filter_nil_all _ _ Hmissing) as Hpresent. clear Hmissing.
  induction labels as [|l labels IH]; simpl; [reflexivity|].
  rewrite map_app, IH by (intros x Hx; apply Hpresent; now right).
  rewrite columns_labelled_unique; [reflexivity | assumption |].
  specialize (Hpresent l (or_introl eq_refl)).
  now apply negb_false_iff in Hpresent.
Qed.

(** ** The generation job *)

(** A run of [generate_dataset] that returns has selected its columns from
    the [train] split of the queue item. *)
Lemma generate_dataset_Ok_inv (env : Env) (system_prompt : string)
    (num_turns num_rows : Z) (is_sample : bool) (h : History)
    (dataframe : DataFrame) (t : list Event) :
  generate_dataset env system_prompt num_turns num_rows is_sample h
    = (Ok dataframe, t) ->
  exists train : Dataset,
    (if num_turns =? 1
     then df_getitem ["prompt"; "completion"] (to_pandas train)
     else df_getitem ["messages"] (to_pandas train)) = Ok dataframe.
Proof.
  unfold generate_dataset. intros Hrun.
  apply bind_Ok_inv in Hrun as (? & ? & ? & _ & Hrun & _).
  apply bind_Ok_inv in Hrun as (? & ? & ? & _ & Hrun & _).
  apply bind_Ok_inv in Hrun as (? & ? & ? & _ & Hrun & _).
  apply bind_Ok_inv in Hrun as (distiset & ? & ? & _ & Hrun & _).
  apply bind_Ok_inv in Hrun as (config & ? & ? & _ & Hrun & _).
  apply bind_Ok_inv in Hrun as (train & ? & ? & _ & Hrun & _).
  apply bind_Ok_inv in Hrun as (outputs & ? & ? & Hsel & Hrun & _).
  apply bind_Ok_inv in Hrun as (? & ? & ? & _ & Hret & _).
  apply lift_Ok_inv in Hsel as [Hsel _].
  unfold ret in Hret. injection Hret as <- _.
  now exists train.
Qed.

Lemma generate_dataset_columns_cases (env : Env) (system_prompt : string)
    (num_turns num_rows : Z) (is_sample : bool) (h : History)
    (dataframe : DataFrame) (t : list Event) :
  generate_dataset env system_prompt num_turns num_rows is_sample h
    = (Ok dataframe, t) ->
  column_names dataframe =
  if num_turns =? 1 then ["prompt"; "completion"] else ["messages"].
Proof.
  intros Hrun.
  apply generate_dataset_Ok_inv in Hrun as [train Hsel].
  destruct (num_turns =? 1);
    exact (df_getitem_names _ _ _ (ds_unique train) Hsel).
Qed.

(** C4: a generation that completes with [num_turns = 1] returns a table
    whose columns are exactly prompt and completion; one that completes
    with [num_turns > 1] returns a table whose only column is messages. *)
Theorem generate_dataset_columns (env : Env) (system_prompt : string)
    (num_turns num_rows : Z) (is_sample : bool) (h : History)
    (dataframe : DataFrame) (t : list Event) :
  generate_dataset env system_prompt num_turns num_rows is_sample h
    = (Ok dataframe, t) ->
  (num_turns = 1 -> column_names dataframe = ["prompt"; "completion"])
  /\ (num_turns > 1 -> column_names dataframe = ["messages"]).
Proof.
  intros Hrun.
  rewrite (generate_dataset_columns_cases _ _ _ _ _ _ _ _ Hrun).
  split; intros Hturns.
  - now subst.
  - destruct (Z.eqb_spec num_turns 1); [lia | reflexivity].
Qed.

Lemma generate_dataset_columns_witness :
  let single :=
    generate_dataset (calm_env 2 sample_distiset)
      "You are a chemistry tutor." 1 3 false [] in
  let multi :=
    generate_dataset (calm_env 2 sample_chat_distiset)
      "You are a chemistry tutor." 2 3 false [] in
  (exists df, result_of single = Ok df
     /\ column_names df = ["prompt"; "completion"])
  /\ (exists df, result_of multi = Ok df /\ column_names df = ["messages"]).
Proof.
  split.
  - exists (mkDataFrame [("prompt", [CellText "What is an acid?"]);
                         ("completion", [CellText "A proton donor."])]).
    split; [reflexivity|].
    apply (generate_dataset_columns (calm_env 2 sample_distiset)
             "You are a chemistry tutor." 1 3 false [] _
             (emitted (generate_dataset (calm_env 2 sample_distiset)
                         "You are a chemistry tutor." 1 3 false [])));
      reflexivity.
  - exists (mkDataFrame
              [("messages",
                [CellMessages [mkMessage "user" "What is an acid?";
                               mkMessage "assistant" "A proton donor."]])]).
    split; [reflexivity|].
    apply (generate_dataset_columns (calm_env 2 sample_chat_distiset)
             "You are a chemistry tutor." 2 3 false [] _
             (emitted (generate_dataset (calm_env 2 sample_chat_distiset)
                         "You are a chemistry tutor." 2 3 false [])));
      [reflexivity | lia].
Defined.

(** ** What a handler may emit *)

Lemma emits_only_ret {A} (P : Event -> Prop) (a : A) : emits_only P (ret a).
Proof. intros h. constructor. Qed.

Lemma emits_only_lift {A} (P : Event -> Prop) (r : Result A) :
  emits_only P (lift r).
Proof. intros h. constructor. Qed.

Lemma emits_only_call (env : Env) (P : Event -> Prop) (e : Event) :
  P e -> emits_only P (call env e).
Proof.
  intros He h. rewrite (proj1 (call_run env e h)). now repeat constructor.
Qed.

Lemma emits_only_query {A} (env : Env) (P : Event -> Prop) (e : Event)
    (answer : History -> A) :
  P e -> emits_only P (query env e answer).
Proof.
  intros He h. unfold query, emitted.
  destruct (env_outcome env h e); simpl; now repeat constructor.
Qed.

Lemma emits_only_bind {A B} (P : Event -> Prop) (m : M A) (f : A -> M B) :
  emits_only P m -> (forall a, emits_only P (f a)) -> emits_only P (bind m f).
Proof.
  intros Hm Hf h. rewrite bind_run. specialize (Hm h). unfold emitted in Hm.
  destruct (m h) as [[a|e|] t1]; simpl in *; try assumption.
  apply Forall_app. split; [assumption | apply Hf].
Qed.

Lemma emits_only_try_except {A} (P : Event -> Prop) (body : M A)
    (handler : Exn -> M A) :
  emits_only P body -> (forall e, emits_only P (handler e)) ->
  emits_only P (try_except body handler).
Proof.
  intros Hb Hh h. unfold try_except. specialize (Hb h). unfold emitted in *.
  destruct (body h) as [[a|e|] t1]; simpl in *; try assumption.
  destruct (is_Exception e); simpl; [|assumption].
  specialize (Hh e (h ++ t1)).
  destruct (handler e (h ++ t1)) as [r t2]. simpl in *.
  apply Forall_app. now split.
Qed.

Create HintDb emits.

#[local] Hint Resolve emits_only_ret emits_only_lift emits_only_call
  emits_only_query emits_only_bind emits_only_try_except : emits.

Lemma emits_only_polling_loop (env : Env) (P : Event -> Prop) (num_rows : Z)
    (steps : list nat) :
  P EvIsAlive -> P EvPopenPoll ->
  (forall q desc, P (EvProgress q desc)) -> (forall q, P (EvSleep q)) ->
  emits_only P (polling_loop env num_rows steps).
Proof.
  intros Halive Hpoll Hprogress Hsleep.
  induction steps as [|step rest IH]; simpl; auto with emits.
  apply emits_only_bind; auto with emits. intros alive.
  apply emits_only_bind.
  - destruct alive; simpl; auto with emits.
  - intros [|]; unfold progress; auto 6 with emits.
Qed.

Lemma emits_only_run_worker (env : Env) (P : Event -> Prop) (num_rows : Z) :
  P EvProcessStart -> P EvIsAlive -> P EvPopenPoll ->
  (forall q desc, P (EvProgress q desc)) -> (forall q, P (EvSleep q)) ->
  P EvJoin ->
  emits_only P (run_worker env num_rows).
Proof.
  intros. unfold run_worker, raise.
  apply emits_only_try_except; auto with emits.
  apply emits_only_bind; auto with emits. intros _.
  apply emits_only_bind; auto with emits.
  now apply emits_only_polling_loop.
Qed.

Lemma generate_dataset_spawn (env : Env) (system_prompt : string)
    (num_turns num_rows : Z) (is_sample : bool) :
  emits_only (spawned_with num_turns num_rows system_prompt is_sample)
    (generate_dataset env system_prompt num_turns num_rows is_sample).
Proof.
  unfold generate_dataset, progress.
  repeat (apply emits_only_bind; [|intros ?]);
    try (apply emits_only_run_worker);
    try (apply emits_only_call); try (apply emits_only_query);
    auto with emits; simpl; auto.
Qed.

(** ** The sample generator *)

Lemma py_in_false (x : string) (xs : list string) :
  ~ In x xs -> py_in x xs = false.
Proof.
  intros Hnot. destruct (py_in x xs) eqn:Hin; [|reflexivity].
  apply py_in_In in Hin. contradiction.
Qed.

(** C8: for a system prompt outside the preset list,
    [generate_sample_dataset] reports its first milestone and then runs
    [generate_dataset] with [num_turns = 1], [num_rows = 1] and
    [is_sample = True]: the events of that run follow the milestone, any
    worker process is created with exactly these arguments, and a table
    returned by [generate_sample_dataset] is the one that run returned. *)
Theorem generate_sample_dataset_delegates (env : Env)
    (DEFAULT_SYSTEM_PROMPTS : list string) (DEFAULT_DATASETS : list DataFrame)
    (system_prompt : string) (h : History) :
  ~ In system_prompt DEFAULT_SYSTEM_PROMPTS ->
  let announced :=
    EvProgress (1 # 10) "Initializing sample dataset generation" in
  let finished := EvProgress 1 "Sample dataset generated" in
  let runner := generate_dataset env system_prompt 1 1 true (h ++ [announced]) in
  let sample :=
    generate_sample_dataset env DEFAULT_SYSTEM_PROMPTS DEFAULT_DATASETS
      system_prompt h in
  (env_outcome env h announced = Returns ->
     exists rest,
       emitted sample = announced :: emitted runner ++ rest
       /\ (rest = [] \/ rest = [finished]))
  /\ (forall df, result_of sample = Ok df ->
        result_of runner = Ok df
        /\ emitted sample = announced :: emitted runner ++ [finished])
  /\ (forall df, result_of runner = Ok df ->
        env_outcome env h announced = Returns ->
        env_outcome env (h ++ announced :: emitted runner) finished = Returns ->
        result_of sample = Ok df)
  /\ Forall (spawned_with 1 1 system_prompt true) (emitted sample).
Proof.
  intros Hnot announced finished runner sample.
  assert (Hspawn : Forall (spawned_with 1 1 system_prompt true)
                     (emitted runner))
    by apply generate_dataset_spawn.
  assert (Hsample : sample =
    match env_outcome env h announced with
    | Returns =>
        match runner with
        | (Ok df, t1) =>
            (match env_outcome env (h ++ announced :: t1) finished with
             | Returns => Ok df
             | Raises x => Raise x
             | Blocks => Blocked
             end, announced :: t1 ++ [finished])
        | (Raise e, t1) => (Raise e, announced :: t1)
        | (Blocked, t1) => (Blocked, announced :: t1)
        end
    | Raises x => (Raise x, [announced])
    | Blocks => (Blocked, [announced])
    end).
  { subst sample runner. unfold generate_sample_dataset.
    rewrite (py_in_false _ _ Hnot).
    unfold bind, progress, call. fold announced finished.
    destruct (env_outcome env h announced); try reflexivity.
    destruct (generate_dataset _ _ _ _ _ _) as [[df|e|] t1]; try reflexivity.
    replace ((h ++ [announced]) ++ t1) with (h ++ announced :: t1)
      by (rewrite <- app_assoc; reflexivity).
    destruct (env_outcome env (h ++ announced :: t1) finished); reflexivity. }
  rewrite Hsample. clearbody sample runner. clear Hsample.
  unfold result_of, emitted in *.
  destruct (env_outcome env h announced) eqn:Hfirst;
    [|simpl; repeat split; try discriminate; now repeat constructor ..].
  destruct runner as [[df|e|] t1]; simpl in *.
  - assert (Hall : Forall (spawned_with 1 1 system_prompt true)
                     (announced :: t1 ++ [finished])).
    { constructor; [exact I|]. apply Forall_app. split; [assumption|].
      repeat constructor. }
    repeat split; auto.
    + intros _. exists [finished]. auto.
    + destruct (env_outcome env (h ++ announced :: t1) finished);
        congruence.
    + intros df' [= <-] _ ->. reflexivity.
  - repeat split; try discriminate.
    + intros _. exists []. rewrite app_nil_r. auto.
    + constructor; [exact I | assumption].
  - repeat split; try discriminate.
    + intros _. exists []. rewrite app_nil_r. auto.
    + constructor; [exact I | assumption].
Qed.

Lemma generate_sample_dataset_delegates_witness :
  let sample :=
    generate_sample_dataset (calm_env 1 sample_distiset) sample_prompts
      sample_datasets "You are a poet." [] in
  let runner :=
    generate_dataset (calm_env 1 sample_distiset) "You are a poet." 1 1 true
      [EvProgress (1 # 10) "Initializing sample dataset generation"] in
  ~ In "You are a poet." sample_prompts
  /\ result_of sample
     = Ok (mkDataFrame [("prompt", [CellText "What is an acid?"]);
                        ("completion", [CellText "A proton donor."])])
  /\ result_of runner
     = Ok (mkDataFrame [("prompt", [CellText "What is an acid?"]);
                        ("completion", [CellText "A proton donor."])])
  /\ emitted sample
     = EvProgress (1 # 10) "Initializing sample dataset generation"
       :: emitted runner ++ [EvProgress 1 "Sample dataset generated"].
Proof.
  intros sample runner.
  assert (Hnot : ~ In "You are a poet." sample_prompts)
    by (simpl; intros [H|[H|[]]]; discriminate).
  split; [exact Hnot|]. split; [reflexivity|].
  apply (proj1 (proj2 (generate_sample_dataset_delegates
                         (calm_env 1 sample_distiset) sample_prompts
                         sample_datasets "You are a poet." [] Hnot))).
  reflexivity.
Defined.

(** ** Progress of the polling loop *)

Lemma fraction_lt (i j : nat) : (i < j)%nat -> (fraction i < fraction j)%Q.
Proof.
  intros Hij. unfold fraction, Qlt. simpl. lia.
Qed.

Lemma fraction_bounds (step : nat) :
  (step < total_steps)%nat -> (0 < fraction step)%Q /\ (fraction step <= 1)%Q.
Proof.
  unfold total_steps, fraction, Qlt, Qle. simpl. lia.
Qed.

Lemma fraction_one (step : nat) :
  (fraction step == 1)%Q <-> step = 99%nat.
Proof.
  unfold fraction, Qeq. simpl. lia.
Qed.

Lemma fractions_increasing (start polls : nat) :
  StronglySorted Qlt (map fraction (seq start polls)).
Proof.
  revert start. induction polls as [|polls IH]; intros start; simpl.
  - constructor.
  - constructor; [apply IH|].
    apply Forall_map, Forall_forall. intros j Hj.
    apply in_seq in Hj. apply fraction_lt. lia.
Qed.

Lemma polling_loop_cons (env : Env) (num_rows : Z) (step : nat)
    (rest : list nat) :
  polling_loop env num_rows (step :: rest) =
  (alive <- query env EvIsAlive (env_is_alive env) ;;
   stop <- (if negb alive then ret true
            else code <- query env EvPopenPoll (env_popen_poll env) ;;
                 ret (match code with Some _ => true | None => false end)) ;;
   if (stop : bool) then ret tt
   else
     progress env (fraction step)
       ("Generating dataset with " ++ str_of_int num_rows
        ++ " rows. Don't close this window.")%string ;;
     call env (EvSleep (duration num_rows # Pos.of_nat total_steps)) ;;
     polling_loop env num_rows rest).
Proof. reflexivity. Qed.

Lemma polling_loop_fractions (env : Env) (num_rows : Z) (n start : nat)
    (h : History) :
  exists polls,
    (polls <= n)%nat
    /\ progress_fractions
         (emitted (polling_loop env num_rows (seq start n) h))
       = map fraction (seq start polls).
Proof.
  revert start h. induction n as [|n IH]; intros start h.
  - exists O. split; [lia | reflexivity].
  - change (seq start (S n)) with (start :: seq (S start) n).
    rewrite polling_loop_cons.
    unfold bind, query, progress, call, ret.
    repeat match goal with
           | |- context [match env_outcome ?e ?hh ?ev with _ => _ end] =>
               destruct (env_outcome e hh ev); cbv beta iota zeta
           | |- context [negb (env_is_alive ?e ?hh)] =>
               destruct (env_is_alive e hh); cbv beta iota zeta delta [negb]
           | |- context [match env_popen_poll ?e ?hh with _ => _ end] =>
               destruct (env_popen_poll e hh); cbv beta iota zeta
           end;
      try (exists O; split; [lia | reflexivity]);
      try (exists 1%nat; split; [lia | reflexivity]).
    match goal with
    | |- context [polling_loop ?e ?nr ?l ?hh] =>
        destruct (IH (S start) hh) as (polls & Hpolls & Hfr);
        destruct (polling_loop e nr l hh) as [r t]
    end.
    exists (S polls). split; [lia|].
    unfold emitted in *. cbn [snd] in *.
    rewrite !progress_fractions_app, Hfr. reflexivity.
Qed.

Ltac env_cases :=
  repeat match goal with
         | |- context [match env_outcome ?e ?hh ?ev with _ => _ end] =>
             destruct (env_outcome e hh ev); cbv beta iota zeta
         end.

Lemma generate_dataset_fractions (env : Env) (system_prompt : string)
    (num_turns num_rows : Z) (is_sample : bool) (h : History) :
  let run :=
    generate_dataset env system_prompt num_turns num_rows is_sample h in
  exists (polls : nat) (completion : list Q),
    progress_fractions (emitted run)
      = map fraction (seq 0 polls) ++ completion
    /\ (polls <= total_steps)%nat
    /\ (completion = [] \/ completion = [1%Q])
    /\ (forall df, result_of run = Ok df -> completion = [1%Q]).
Proof.
  intros run. subst run.
  unfold generate_dataset, run_worker, try_except, bind, query, progress,
    call, ret, raise, lift.
  env_cases.
  all: try match goal with
    | |- context [polling_loop ?e ?nr ?l ?hh] =>
        destruct (polling_loop_fractions e nr total_steps 0 hh)
          as (polls & Hle & Hfr);
        destruct (polling_loop e nr l hh) as [[u|x|] tl]
    end; cbv beta iota zeta.
  all: env_cases.
  all: repeat match goal with
         | |- context [is_Exception ?x] =>
             destruct (is_Exception x); cbv beta iota zeta
         | |- context [match dict_getitem ?k ?d with _ => _ end] =>
             destruct (dict_getitem k d); cbv beta iota zeta
         | |- context [if ?n =? 1 then _ else _] =>
             destruct (n =? 1); cbv beta iota zeta
         | |- context [match df_getitem ?k ?d with _ => _ end] =>
             destruct (df_getitem k d); cbv beta iota zeta
         end; env_cases.
  all: unfold emitted, result_of in *; cbn [fst snd] in *.
  all: first
    [ exists polls, [1%Q]; split;
      [ rewrite !progress_fractions_app, Hfr;
        cbn [progress_fractions flat_map app]; rewrite ?app_nil_r;
        reflexivity
      | repeat split; auto; discriminate ]
    | exists polls, []; split;
      [ rewrite ?progress_fractions_app, ?Hfr;
        cbn [progress_fractions flat_map app]; rewrite ?app_nil_r;
        reflexivity
      | repeat split; auto; discriminate ]
    | exists O, []; repeat split; auto using Nat.le_0_l; discriminate ].
Qed.

(** C2 (as the code has it): the fractions reported by the polling loop of a
    run are [(step + 1) / 100] for [step = 0 .. polls - 1], [polls <= 100]:
    strictly increasing, each above 0 and at most 1, and equal to 1 exactly
    at step 99, that is when the worker is still alive at the last poll.
    The only progress call after the loop is the completion call with
    value 1, and every run that returns has made it. *)
Theorem generate_dataset_progress (env : Env) (system_prompt : string)
    (num_turns num_rows : Z) (is_sample : bool) (h : History) :
  let run :=
    generate_dataset env system_prompt num_turns num_rows is_sample h in
  exists (polls : nat) (completion : list Q),
    progress_fractions (emitted run)
      = map fraction (seq 0 polls) ++ completion
    /\ (polls <= total_steps)%nat
    /\ StronglySorted Qlt (map fraction (seq 0 polls))
    /\ Forall (fun q => (0 < q)%Q /\ (q <= 1)%Q) (map fraction (seq 0 polls))
    /\ (forall step, (step < polls)%nat ->
          ((fraction step == 1)%Q <-> step = 99%nat))
    /\ (completion = [] \/ completion = [1%Q])
    /\ (forall df, result_of run = Ok df -> completion = [1%Q]).
Proof.
  intros run.
  destruct (generate_dataset_fractions env system_prompt num_turns num_rows
              is_sample h) as (polls & completion & Hfr & Hle & Hshape & Hok).
  exists polls, completion. repeat split; auto.
  - apply fractions_increasing.
  - apply Forall_map, Forall_forall. intros step Hstep.
    apply in_seq in Hstep. apply fraction_bounds. lia.
  - apply fraction_one.
  - apply fraction_one.
Qed.

(** C2 as stated fails: with a worker that outlives the estimated duration
    (alive at all 100 polls) the run returns, and the fractions reported
    before the completion call are not all below 1: the last poll reports
    [100 / 100]. *)
Lemma generate_dataset_polling_reaches_one :
  let run :=
    generate_dataset (calm_env 100 sample_distiset)
      "You are a chemistry tutor." 1 10 false [] in
  (exists df, result_of run = Ok df)
  /\ ~ Forall (fun q => (0 <= q)%Q /\ (q < 1)%Q)
         (removelast (progress_fractions (emitted run))).
Proof.
  intros run. split.
  - eexists. vm_compute. reflexivity.
  - assert (Hloop : removelast (progress_fractions (emitted run))
                    = map fraction (seq 0 100))
      by (vm_compute; reflexivity).
    rewrite Hloop. intros Hall. rewrite Forall_forall in Hall.
    destruct (Hall (fraction 99)) as [_ Hlt].
    + apply in_map, in_seq. lia.
    + revert Hlt. unfold fraction, Qlt. simpl. lia.
Qed.

(** ** The error path of the generation job *)

Lemma Forall_existsb_false (p : Event -> bool) (t : list Event) :
  Forall (fun e => p e = false) t -> existsb p t = false.
Proof.
  induction 1 as [|e t He _ IH]; simpl; [reflexivity|].
  now rewrite He, IH.
Qed.

(** The loop itself never joins or terminates the worker. *)
Lemma polling_loop_no_reap (env : Env) (num_rows : Z) (steps : list nat)
    (h : History) :
  existsb is_reap (emitted (polling_loop env num_rows steps h)) = false.
Proof.
  apply Forall_existsb_false.
  now apply (emits_only_polling_loop env (fun e => is_reap e = false)).
Qed.

(** C3 (as the code has it): when the worker was started and an Exception
    [e] escapes the polling loop, [generate_dataset] re-raises it as
    [gr.Error] with the message "An error occurred during dataset
    generation: " followed by [str(e)]; the run ends with the events of the
    loop, and none of its events joins or terminates the worker. *)
Theorem generate_dataset_loop_error (env : Env) (system_prompt : string)
    (num_turns num_rows : Z) (is_sample : bool) (h : History)
    (e : Exn) (tl : list Event) :
  let spawn := EvProcessCreate num_turns num_rows system_prompt is_sample in
  env_outcome env h EvQueueCreate = Returns ->
  env_outcome env (h ++ [EvQueueCreate]) spawn = Returns ->
  env_outcome env (h ++ [EvQueueCreate; spawn]) EvProcessStart = Returns ->
  polling_loop env num_rows (seq 0 total_steps)
    (h ++ [EvQueueCreate; spawn; EvProcessStart]) = (Raise e, tl) ->
  is_Exception e = true ->
  generate_dataset env system_prompt num_turns num_rows is_sample h
  = (Raise (gr_Error ("An error occurred during dataset generation: "
                      ++ exn_str e)%string),
     [EvQueueCreate; spawn; EvProcessStart] ++ tl)
  /\ existsb is_reap ([EvQueueCreate; spawn; EvProcessStart] ++ tl) = false.
Proof.
  intros spawn Hqueue Hspawn Hstart Hloop Hexn. split.
  - replace (h ++ [EvQueueCreate; spawn])
      with ((h ++ [EvQueueCreate]) ++ [spawn]) in Hstart
      by (rewrite <- app_assoc; reflexivity).
    replace (h ++ [EvQueueCreate; spawn; EvProcessStart])
      with (((h ++ [EvQueueCreate]) ++ [spawn]) ++ [EvProcessStart]) in Hloop
      by (rewrite <- !app_assoc; reflexivity).
    unfold generate_dataset, run_worker, try_except, bind, query, progress,
      call, ret, raise, lift.
    fold spawn.
    rewrite Hqueue. cbv beta iota zeta.
    rewrite Hspawn. cbv beta iota zeta.
    rewrite Hstart. cbv beta iota zeta.
    rewrite Hloop. cbv beta iota zeta.
    rewrite Hexn. cbv beta iota zeta.
    cbn [app]. now rewrite app_nil_r.
  - rewrite existsb_app.
    pose proof (polling_loop_no_reap env num_rows (seq 0 total_steps)
                  (h ++ [EvQueueCreate; spawn; EvProcessStart])) as Hno.
    rewrite Hloop in Hno. unfold emitted in Hno. cbn [snd] in Hno.
    now rewrite Hno.
Qed.

Lemma generate_dataset_loop_error_witness :
  let spawn := EvProcessCreate 1 10 "You are a chemistry tutor." false in
  let polled :=
    [EvIsAlive; EvPopenPoll;
     EvProgress (1 # 100)
       "Generating dataset with 10 rows. Don't close this window."] in
  generate_dataset lost_client_env "You are a chemistry tutor." 1 10 false []
  = (Raise (gr_Error
       "An error occurred during dataset generation: client disconnected"),
     [EvQueueCreate; spawn; EvProcessStart] ++ polled)
  /\ existsb is_reap ([EvQueueCreate; spawn; EvProcessStart] ++ polled)
     = false.
Proof.
  intros spawn polled.
  apply (generate_dataset_loop_error lost_client_env
           "You are a chemistry tutor." 1 10 false [] lost_client polled);
    reflexivity.
Defined.

(** C3 as stated fails: the progress callback raises at the first poll
    while the worker is alive; the run ends with [gr.Error], no event of
    the run joins or terminates the worker, and the worker is still alive
    when the error reaches the caller. *)
Lemma generate_dataset_leaves_worker_running :
  let run :=
    generate_dataset lost_client_env "You are a chemistry tutor." 1 10
      false [] in
  result_of run
  = Raise (gr_Error
      "An error occurred during dataset generation: client disconnected")
  /\ emitted run
     = [EvQueueCreate;
        EvProcessCreate 1 10 "You are a chemistry tutor." false;
        EvProcessStart; EvIsAlive; EvPopenPoll;
        EvProgress (1 # 100)
          "Generating dataset with 10 rows. Don't close this window."]
  /\ existsb is_reap (emitted run) = false
  /\ env_is_alive lost_client_env (emitted run) = true.
Proof. repeat split. Qed.

(** On the path without exception the worker is joined right before the
    queue is read: this is the shape of every run that returns. *)
Lemma generate_dataset_Ok_trace (env : Env) (system_prompt : string)
    (num_turns num_rows : Z) (is_sample : bool) (h : History)
    (dataframe : DataFrame) (t : list Event) :
  generate_dataset env system_prompt num_turns num_rows is_sample h
    = (Ok dataframe, t) ->
  exists tl,
    t = [EvQueueCreate;
         EvProcessCreate num_turns num_rows system_prompt is_sample;
         EvProcessStart]
        ++ tl
        ++ [EvJoin; EvQueueGet; EvProgress 1 "Dataset generation completed"]
    /\ existsb is_reap tl = false.
Proof.
  unfold generate_dataset, run_worker, try_except, bind, query, progress,
    call, ret, raise, lift.
  env_cases; try discriminate.
  match goal with
  | |- context [polling_loop ?e ?nr ?l ?hh] =>
      pose proof (polling_loop_no_reap e nr l hh) as Hno;
      destruct (polling_loop e nr l hh) as [[u|x|] tl]
  end; cbv beta iota zeta.
  all: env_cases.
  all: repeat match goal with
         | |- context [is_Exception ?x] =>
             destruct (is_Exception x); cbv beta iota zeta
         | |- context [match dict_getitem ?k ?d with _ => _ end] =>
             destruct (dict_getitem k d); cbv beta iota zeta
         | |- context [if ?n =? 1 then _ else _] =>
             destruct (n =? 1); cbv beta iota zeta
         | |- context [match df_getitem ?k ?d with _ => _ end] =>
             destruct (df_getitem k d); cbv beta iota zeta
         end; env_cases.
  all: try discriminate.
  all: intros [= _ <-]; exists tl; split; [|exact Hno].
  all: cbn [app]; rewrite ?app_nil_r, <- ?app_assoc; reflexivity.
Qed.

(** * Further properties of the handlers *)

(** ** Repository names *)

Lemma truthy_nonempty (s : string) : truthy s = true <-> s <> "".
Proof. destruct s; simpl; split; congruence. Qed.

Lemma truthy_join (org repo : string) :
  truthy (org ++ "/" ++ repo)%string = true.
Proof. destruct org; reflexivity. Qed.

Lemma check_push_to_hub_Some_inv (org_name repo_name : option string)
    (id : string) :
  _check_push_to_hub org_name repo_name = Ok (Some id) ->
  exists org repo,
    org_name = Some org /\ repo_name = Some repo
    /\ id = (org ++ "/" ++ repo)%string.
Proof.
  destruct org_name as [org|], repo_name as [repo|]; try discriminate.
  unfold _check_push_to_hub. destruct (negb _); [discriminate|].
  intros [= <-]. now exists org, repo.
Qed.

(** X1: [_check_push_to_hub] has three outcomes and the names decide which:
    it returns the repository id [org/repo] exactly when both names are
    given and non-empty, returns None exactly when a name is None, and
    raises exactly when both are given and one of them is the empty string. *)
Theorem check_push_to_hub_outcomes (org_name repo_name : option string) :
  (forall id,
     _check_push_to_hub org_name repo_name = Ok (Some id) <->
     exists org repo,
       org_name = Some org /\ repo_name = Some repo
       /\ org <> "" /\ repo <> "" /\ id = (org ++ "/" ++ repo)%string)
  /\ (_check_push_to_hub org_name repo_name = Ok None <->
      org_name = None \/ repo_name = None)
  /\ ((exists e, _check_push_to_hub org_name repo_name = Raise e) <->
      exists org repo,
        org_name = Some org /\ repo_name = Some repo
        /\ (org = "" \/ repo = "")).
Proof.
  destruct org_name as [org|], repo_name as [repo|];
    try (cbn; repeat split;
         try (intros (? & ? & ? & ?); intuition congruence);
         try (intros [? ?]; congruence);
         intuition congruence).
  unfold _check_push_to_hub. rewrite truthy_join, andb_true_l.
  destruct (truthy org) eqn:Horg, (truthy repo) eqn:Hrepo; cbn [andb negb].
  all: try (apply truthy_nonempty in Horg).
  all: try (apply truthy_nonempty in Hrepo).
  all: try (assert (org = "") by (destruct org; [reflexivity | discriminate])).
  all: try (assert (repo = "") by (destruct repo; [reflexivity | discriminate])).
  all: repeat split.
  all: try (intros [= <-]; exists org, repo; auto).
  all: try (intros (o & r & [= <-] & [= <-] & ? & ? & ->); reflexivity).
  all: try (intros (o & r & [= <-] & [= <-] & ? & ? & ?); congruence).
  all: try (intros (o & r & [= <-] & [= <-] & [? | ?]); congruence).
  all: try (intros [e He]; discriminate).
  all: try (intros [? | ?]; discriminate).
  all: try discriminate.
  all: try (intros _; eexists; reflexivity).
  all: try (intros _; exists org, repo; auto).
Qed.

(** X2: when both names are given and one is the empty string,
    [push_to_hub] raises the [gr.Error] asking for both names and makes no
    call at all: the hub is not contacted. *)
Theorem push_to_hub_empty_name_rejected (env : Env) (dataframe : DataFrame)
    (private : bool) (org repo : string) (token : option string)
    (h : History) :
  org = "" \/ repo = "" ->
  push_to_hub env dataframe private (Some org) (Some repo) token h
  = (Raise (gr_Error
       "Please provide a `repo_name` and `org_name` to push the dataset to."),
     []).
Proof.
  intros Hempty. apply push_to_hub_rejected_silent.
  unfold _check_push_to_hub. rewrite truthy_join, andb_true_l.
  replace (truthy org && truthy repo) with false; [reflexivity|].
  destruct Hempty as [-> | ->]; [reflexivity | now rewrite andb_false_r].
Qed.

Lemma push_to_hub_empty_name_rejected_witness :
  ("" = "" \/ "my-distiset" = "")
  /\ push_to_hub (calm_env 0 sample_distiset) sample_table true
       (Some "") (Some "my-distiset") None []
     = (Raise (gr_Error
          "Please provide a `repo_name` and `org_name` to push the dataset to."),
        []).
Proof.
  split; [now left|].
  apply (push_to_hub_empty_name_rejected (calm_env 0 sample_distiset)
           sample_table true "" "my-distiset" None []).
  now left.
Defined.

(** X3: with two non-empty names [push_to_hub] makes exactly one hub
    request, for the repository [org/repo], with the caller's privacy flag
    and token, [include_script=True] and the caller's table; what the hub
    answers is the outcome of the call, an exception of the hub coming out
    as it was raised. *)
Theorem push_to_hub_named (env : Env) (dataframe : DataFrame)
    (private : bool) (org repo : string) (token : option string)
    (h : History) :
  org <> "" -> repo <> "" ->
  let request :=
    EvDistisetPush (Some (org ++ "/" ++ repo)%string) private true token
      dataframe in
  push_to_hub env dataframe private (Some org) (Some repo) token h
  = (match env_outcome env h request with
     | Returns => Ok dataframe
     | Raises e => Raise e
     | Blocks => Blocked
     end, [request]).
Proof.
  intros Horg Hrepo request.
  apply truthy_nonempty in Horg. apply truthy_nonempty in Hrepo.
  unfold push_to_hub, _check_push_to_hub.
  rewrite truthy_join, Horg, Hrepo. cbn [andb negb].
  unfold bind, lift, call, ret. rewrite app_nil_r. fold request.
  destruct (env_outcome env h request); reflexivity.
Qed.

Lemma push_to_hub_named_witness :
  "argilla" <> "" /\ "my-distiset" <> ""
  /\ push_to_hub lost_client_env sample_table false
       (Some "argilla") (Some "my-distiset") (Some "hf_token") []
     = (Ok sample_table,
        [EvDistisetPush (Some "argilla/my-distiset") false true
           (Some "hf_token") sample_table]).
Proof.
  assert (Horg : "argilla" <> "") by discriminate.
  assert (Hrepo : "my-distiset" <> "") by discriminate.
  split; [exact Horg | split; [exact Hrepo|]].
  exact (push_to_hub_named lost_client_env sample_table false "argilla"
           "my-distiset" (Some "hf_token") [] Horg Hrepo).
Defined.

(** X4: whenever [_check_push_to_hub] accepts the names and returns a
    repository id, [upload_pipeline_code] called with the same names sends
    its single request to that same repository: the file [pipeline.py] of
    a dataset repository, holding the pipeline code, under the caller's
    token. *)
Theorem upload_pipeline_code_same_repo (upload_file : UploadRequest -> Outcome)
    (pipeline_code : string) (org_name repo_name token : option string)
    (id : string) :
  _check_push_to_hub org_name repo_name = Ok (Some id) ->
  snd (upload_pipeline_code upload_file pipeline_code org_name repo_name token)
  = [mkUploadRequest pipeline_code "pipeline.py" id "dataset" token
       "Include pipeline script"].
Proof.
  intros Hcheck.
  destruct (check_push_to_hub_Some_inv _ _ _ Hcheck)
    as (org & repo & -> & -> & ->).
  reflexivity.
Qed.

Lemma upload_pipeline_code_same_repo_witness :
  _check_push_to_hub (Some "argilla") (Some "my-distiset")
  = Ok (Some "argilla/my-distiset")
  /\ snd (upload_pipeline_code (fun _ => Returns) "print(1)"
            (Some "argilla") (Some "my-distiset") (Some "hf_token"))
     = [mkUploadRequest "print(1)" "pipeline.py" "argilla/my-distiset"
          "dataset" (Some "hf_token") "Include pipeline script"].
Proof.
  split; [reflexivity|].
  apply (upload_pipeline_code_same_repo (fun _ => Returns) "print(1)"
           (Some "argilla") (Some "my-distiset") (Some "hf_token")).
  reflexivity.
Defined.

(** ** Where exceptions come from *)








Lemma py_index_member (x : string) (xs : list string) :
  py_in x xs = true ->
  exists i, py_index x xs = Ok i /\ nth_error xs i = Some x.
Proof.
  intros Hin. apply py_in_In in Hin.
  destruct (py_index_first x xs Hin) as (i & Hi & Hnth & _).
  now exists i.
Qed.

Lemma py_getitem_below {A} (xs : list A) (i : nat) :
  (i <? length xs)%nat = true ->
  exists a, py_getitem xs i = Ok a /\ In a xs.
Proof.
  intros Hlt. apply Nat.ltb_lt in Hlt. unfold py_getitem.
  destruct (nth_error xs i) as [a|] eqn:Hnth.
  - exists a. split; [reflexivity | exact (nth_error_In _ _ Hnth)].
  - apply nth_error_None in Hnth. lia.
Qed.

(** ** The system prompt generator *)

(** X5: a call of [generate_system_prompt] that returns has done one of two
    things.  Either the description is a preset, the returned prompt is one
    of the preset prompts and no call was made; or the text generation step
    was obtained, loaded and run once on (PROMPT_CREATION_PROMPT,
    description), between the four progress milestones 0.1, 0.4, 0.7 and
    1.0, and the returned prompt is the text the step generated. *)
Theorem generate_system_prompt_returns (env : Env)
    (DEFAULT_DATASET_DESCRIPTIONS DEFAULT_SYSTEM_PROMPTS : list string)
    (PROMPT_CREATION_PROMPT description : string) (h : History)
    (prompt : string) (t : list Event) :
  generate_system_prompt env DEFAULT_DATASET_DESCRIPTIONS
    DEFAULT_SYSTEM_PROMPTS PROMPT_CREATION_PROMPT description h
  = (Ok prompt, t) ->
  (In description DEFAULT_DATASET_DESCRIPTIONS
   /\ In prompt DEFAULT_SYSTEM_PROMPTS /\ t = [])
  \/ (let before :=
        [EvProgress (1 # 10) "Initializing text generation";
         EvGetPromptGenerationStep;
         EvProgress (4 # 10) "Loading model";
         EvStepLoad;
         EvProgress (7 # 10) "Generating system prompt"] in
      t = before
          ++ [EvStepProcess PROMPT_CREATION_PROMPT description;
              EvProgress 1 "System prompt generated"]
      /\ prompt = env_generation env (h ++ before)).
Proof.
  unfold generate_system_prompt. cbv zeta.
  match goal with
  | |- context [if _ then _ else ?g] => set (generate := g)
  end.
  assert (Hgen : generate h = (Ok prompt, t) ->
    t = [EvProgress (1 # 10) "Initializing text generation";
         EvGetPromptGenerationStep;
         EvProgress (4 # 10) "Loading model";
         EvStepLoad;
         EvProgress (7 # 10) "Generating system prompt"]
        ++ [EvStepProcess PROMPT_CREATION_PROMPT description;
            EvProgress 1 "System prompt generated"]
    /\ prompt = env_generation env
         (h ++ [EvProgress (1 # 10) "Initializing text generation";
                EvGetPromptGenerationStep;
                EvProgress (4 # 10) "Loading model";
                EvStepLoad;
                EvProgress (7 # 10) "Generating system prompt"])).
  { subst generate. unfold bind, progress, call, query, ret.
    env_cases; try discriminate.
    intros [= <- <-]. split; [reflexivity|].
    rewrite <- !app_assoc. reflexivity. }
  destruct (py_in description DEFAULT_DATASET_DESCRIPTIONS) eqn:Hin;
    [|intros Hrun; right; now apply Hgen].
  destruct (py_index_member _ _ Hin) as (index & Hindex & Hnth).
  rewrite bind_run. unfold lift at 1. rewrite Hindex.
  rewrite app_nil_r. cbn [app].
  destruct (index <? length DEFAULT_SYSTEM_PROMPTS)%nat eqn:Hlt.
  - destruct (py_getitem_below _ _ Hlt) as (p & Hp & Hmem).
    unfold lift, result_of, emitted. rewrite Hp. cbn [fst snd].
    intros [= <- <-]. left. repeat split; auto. now apply py_in_In.
  - unfold result_of, emitted.
    destruct (generate h) as [r t'] eqn:Hrun. cbn [fst snd].
    intros [= -> ->]. right. now apply Hgen.
Qed.

Lemma generate_system_prompt_returns_witness :
  let before :=
    [EvProgress (1 # 10) "Initializing text generation";
     EvGetPromptGenerationStep;
     EvProgress (4 # 10) "Loading model";
     EvStepLoad;
     EvProgress (7 # 10) "Generating system prompt"] in
  let run :=
    generate_system_prompt (calm_env 0 sample_distiset) sample_descriptions
      sample_prompts "Write a system prompt." "A poetry assistant." [] in
  run = (Ok "You are a chemistry tutor.",
         before ++ [EvStepProcess "Write a system prompt." "A poetry assistant.";
                    EvProgress 1 "System prompt generated"])
  /\ ((In "A poetry assistant." sample_descriptions
       /\ In "You are a chemistry tutor." sample_prompts
       /\ before ++ [EvStepProcess "Write a system prompt."
                       "A poetry assistant.";
                     EvProgress 1 "System prompt generated"] = [])
      \/ (before ++ [EvStepProcess "Write a system prompt."
                       "A poetry assistant.";
                     EvProgress 1 "System prompt generated"]
          = before ++ [EvStepProcess "Write a system prompt."
                         "A poetry assistant.";
                       EvProgress 1 "System prompt generated"]
          /\ "You are a chemistry tutor."
             = env_generation (calm_env 0 sample_distiset) ([] ++ before))).
Proof.
  intros before run. split; [reflexivity|].
  apply (generate_system_prompt_returns (calm_env 0 sample_distiset)
           sample_descriptions sample_prompts "Write a system prompt."
           "A poetry assistant." []).
  reflexivity.
Defined.

(** ** The call that raised *)

Lemma at_call_stable (env : Env) (P : Event -> Prop) :
  prefix_stable (at_call env P).
Proof.
  intros h t1 t2 e (pre & ev & -> & Hraise & HP).
  exists (t1 ++ pre), ev. rewrite !app_assoc in *. now repeat split.
Qed.

Lemma raises_with_ret {A} (R : History -> list Event -> Exn -> Prop) (a : A) :
  raises_with R (ret a).
Proof. intros h e. discriminate. Qed.

Lemma raises_with_lift_Ok {A} (R : History -> list Event -> Exn -> Prop)
    (r : Result A) (a : A) :
  r = Ok a -> raises_with R (lift r).
Proof. intros -> h e. discriminate. Qed.

Lemma raises_with_call (env : Env) (P : Event -> Prop) (ev : Event) :
  P ev -> raises_with (at_call env P) (call env ev).
Proof.
  intros HP h e. unfold call, result_of, emitted.
  destruct (env_outcome env h ev) eqn:Hout; simpl; try discriminate.
  intros [= <-]. exists [], ev. rewrite app_nil_r. now repeat split.
Qed.

Lemma raises_with_query {A} (env : Env) (P : Event -> Prop) (ev : Event)
    (answer : History -> A) :
  P ev -> raises_with (at_call env P) (query env ev answer).
Proof.
  intros HP h e. unfold query, result_of, emitted.
  destruct (env_outcome env h ev) eqn:Hout; simpl; try discriminate.
  intros [= <-]. exists [], ev. rewrite app_nil_r. now repeat split.
Qed.

Lemma raises_with_bind {A B} (R : History -> list Event -> Exn -> Prop)
    (m : M A) (f : A -> M B) :
  prefix_stable R ->
  raises_with R m -> (forall a, raises_with R (f a)) ->
  raises_with R (bind m f).
Proof.
  intros Hstable Hm Hf h e. rewrite bind_run. specialize (Hm h).
  unfold result_of, emitted in *.
  destruct (m h) as [[a|x|] t1]; cbn [fst snd] in *.
  - intros Hraise. apply Hstable. now apply Hf.
  - intros [= <-]. now apply Hm.
  - discriminate.
Qed.



(** X6: [generate_system_prompt] raises nothing of its own.  Whatever the
    two preset lists hold, also when there are more descriptions than
    prompts, a run that ends with an exception ends with a call to the
    progress callback or to the text generation step, and the exception is
    the one that call raised; the lookup in the presets never ends in a
    ValueError or an IndexError. *)
Theorem generate_system_prompt_raises (env : Env)
    (DEFAULT_DATASET_DESCRIPTIONS DEFAULT_SYSTEM_PROMPTS : list string)
    (PROMPT_CREATION_PROMPT description : string) (h : History) (e : Exn) :
  let run :=
    generate_system_prompt env DEFAULT_DATASET_DESCRIPTIONS
      DEFAULT_SYSTEM_PROMPTS PROMPT_CREATION_PROMPT description h in
  result_of run = Raise e ->
  exists pre ev,
    emitted run = pre ++ [ev]
    /\ env_outcome env (h ++ pre) ev = Raises e
    /\ (is_progress ev = true \/ is_model_call ev = true).
Proof.
  intros run. subst run. revert h e.
  set (P := fun ev => is_progress ev = true \/ is_model_call ev = true).
  change (raises_with (at_call env P)
    (generate_system_prompt env DEFAULT_DATASET_DESCRIPTIONS
       DEFAULT_SYSTEM_PROMPTS PROMPT_CREATION_PROMPT description)).
  pose proof (at_call_stable env P) as Hstable.
  unfold generate_system_prompt. cbv zeta.
  match goal with
  | |- context [if _ then _ else ?g] => set (generate := g)
  end.
  assert (Hgen : raises_with (at_call env P) generate).
  { subst generate. unfold progress.
    repeat (apply raises_with_bind; [assumption | | intros ?]);
      try (apply raises_with_call; subst P; simpl; now auto);
      try (apply raises_with_query; subst P; simpl; now auto).
    apply raises_with_ret. }
  destruct (py_in description DEFAULT_DATASET_DESCRIPTIONS) eqn:Hin;
    [|exact Hgen].
  destruct (py_index_member _ _ Hin) as (index & Hindex & _).
  apply raises_with_bind; [assumption | |].
  - now apply raises_with_lift_Ok with (a := index).
  - intros i. destruct (i <? length DEFAULT_SYSTEM_PROMPTS)%nat eqn:Hlt;
      [|exact Hgen].
    destruct (py_getitem_below _ _ Hlt) as (p & Hp & _).
    now apply raises_with_lift_Ok with (a := p).
Qed.

Lemma generate_system_prompt_raises_witness :
  let run :=
    generate_system_prompt lost_client_env sample_descriptions short_prompts
      "Write a system prompt." "A customer support assistant." [] in
  result_of run = Raise lost_client
  /\ exists pre ev,
       emitted run = pre ++ [ev]
       /\ env_outcome lost_client_env ([] ++ pre) ev = Raises lost_client
       /\ (is_progress ev = true \/ is_model_call ev = true).
Proof.
  intros run. split; [reflexivity|].
  apply (generate_system_prompt_raises lost_client_env sample_descriptions
           short_prompts "Write a system prompt."
           "A customer support assistant." []).
  reflexivity.
Defined.

(** ** The try block of the generation job *)




(** ** What the generation job raises *)










(** ** The order of the calls of the generation job *)

Lemma polling_loop_events (env : Env) (num_rows : Z) (steps : list nat)
    (h : History) :
  Forall (fun e => is_loop_event e = true)
    (emitted (polling_loop env num_rows steps h)).
Proof.
  now apply (emits_only_polling_loop env (fun e => is_loop_event e = true)).
Qed.

Ltac dataset_cases loop_fact :=
  unfold generate_dataset, run_worker, try_except, bind, query, progress,
    call, ret, raise, lift;
  env_cases;
  try match goal with
      | |- context [polling_loop ?e ?nr ?l ?hh] =>
          loop_fact e nr l hh;
          destruct (polling_loop e nr l hh) as [[?u|?x|] tl]
      end;
  cbv beta iota zeta; env_cases;
  repeat match goal with
         | |- context [is_Exception ?x] =>
             destruct (is_Exception x); cbv beta iota zeta
         | |- context [match dict_getitem ?k ?d with _ => _ end] =>
             destruct (dict_getitem k d); cbv beta iota zeta
         | |- context [if ?n =? 1 then _ else _] =>
             destruct (n =? 1); cbv beta iota zeta
         | |- context [match df_getitem ?k ?d with _ => _ end] =>
             destruct (df_getitem k d); cbv beta iota zeta
         end;
  env_cases.

Ltac order_with loop rest :=
  exists loop, rest;
  split;
  [ cbn [app]; rewrite ?app_nil_r, <- ?app_assoc; cbn [app];
    rewrite <- ?app_assoc; reflexivity
  | first [ assumption | constructor ] ].

(** Every run is an initial part of a complete run. *)
Lemma generate_dataset_initial_part (env : Env) (system_prompt : string)
    (num_turns num_rows : Z) (is_sample : bool) (h : History) :
  exists loop rest,
    emitted (generate_dataset env system_prompt num_turns num_rows
               is_sample h) ++ rest
    = complete_run num_turns num_rows system_prompt is_sample loop
    /\ Forall (fun e => is_loop_event e = true) loop.
Proof.
  unfold complete_run.
  dataset_cases ltac:(fun e nr l hh =>
    pose proof (polling_loop_events e nr l hh) as Hloop).
  all: unfold emitted in *; cbn [snd] in *.
  all: first
    [ order_with tl (@nil Event)
    | order_with tl [EvProgress 1 "Dataset generation completed"]
    | order_with tl [EvQueueGet; EvProgress 1 "Dataset generation completed"]
    | order_with tl [EvJoin; EvQueueGet;
                     EvProgress 1 "Dataset generation completed"]
    | order_with (@nil Event)
        [EvJoin; EvQueueGet; EvProgress 1 "Dataset generation completed"]
    | order_with (@nil Event)
        [EvProcessStart; EvJoin; EvQueueGet;
         EvProgress 1 "Dataset generation completed"]
    | order_with (@nil Event)
        [EvProcessCreate num_turns num_rows system_prompt is_sample;
         EvProcessStart; EvJoin; EvQueueGet;
         EvProgress 1 "Dataset generation completed"] ].
Qed.


Lemma count_events_app (p : Event -> bool) (t1 t2 : list Event) :
  count_events p (t1 ++ t2) = (count_events p t1 + count_events p t2)%nat.
Proof. unfold count_events. now rewrite filter_app, length_app. Qed.

Lemma count_events_loop (p : Event -> bool) (loop : list Event) :
  (forall e, is_loop_event e = true -> p e = false) ->
  Forall (fun e => is_loop_event e = true) loop ->
  count_events p loop = O.
Proof.
  intros Hp. unfold count_events.
  induction 1 as [|e loop He _ IH]; simpl; [reflexivity|].
  now rewrite (Hp e He).
Qed.

(** A call that is no call of the loop and occurs once in a complete run
    occurs at most once in any run. *)
Lemma generate_dataset_at_most_once (env : Env) (system_prompt : string)
    (num_turns num_rows : Z) (is_sample : bool) (h : History)
    (p : Event -> bool) :
  (forall e, is_loop_event e = true -> p e = false) ->
  count_events p
    (complete_run num_turns num_rows system_prompt is_sample []) = 1%nat ->
  (count_events p
     (emitted (generate_dataset env system_prompt num_turns num_rows
                 is_sample h)) <= 1)%nat.
Proof.
  intros Hp Hone.
  destruct (generate_dataset_initial_part env system_prompt num_turns
              num_rows is_sample h) as (loop & rest & Hrun & Hloop).
  apply (f_equal (count_events p)) in Hrun.
  rewrite count_events_app in Hrun.
  unfold complete_run in Hrun, Hone.
  rewrite !count_events_app in Hrun, Hone.
  rewrite (count_events_loop p loop Hp Hloop) in Hrun.
  change (count_events p []) with O in Hone. lia.
Qed.

(** X10: one run of [generate_dataset] creates at most one queue and at
    most one worker process, starts and joins the worker at most once, and
    reads the result queue at most once. *)
Theorem generate_dataset_one_worker (env : Env) (system_prompt : string)
    (num_turns num_rows : Z) (is_sample : bool) (h : History) :
  let t :=
    emitted (generate_dataset env system_prompt num_turns num_rows
               is_sample h) in
  (count_events is_queue_create t <= 1)%nat
  /\ (count_events is_spawn t <= 1)%nat
  /\ (count_events is_start t <= 1)%nat
  /\ (count_events is_join t <= 1)%nat
  /\ (count_events is_queue_get t <= 1)%nat.
Proof.
  intros t. subst t.
  repeat split; apply generate_dataset_at_most_once;
    try reflexivity; intros [ ]; simpl; congruence.
Qed.

(** ** The pace of the polling loop *)

Lemma polling_loop_sleeps (env : Env) (num_rows : Z) (n start : nat)
    (h : History) :
  exists naps,
    (naps <= n)%nat
    /\ sleep_seconds (emitted (polling_loop env num_rows (seq start n) h))
       = repeat (duration num_rows # Pos.of_nat total_steps) naps.
Proof.
  revert start h. induction n as [|n IH]; intros start h.
  - exists O. split; [lia | reflexivity].
  - change (seq start (S n)) with (start :: seq (S start) n).
    rewrite polling_loop_cons.
    unfold bind, query, progress, call, ret.
    repeat match goal with
           | |- context [match env_outcome ?e ?hh ?ev with _ => _ end] =>
               destruct (env_outcome e hh ev); cbv beta iota zeta
           | |- context [negb (env_is_alive ?e ?hh)] =>
               destruct (env_is_alive e hh); cbv beta iota zeta delta [negb]
           | |- context [match env_popen_poll ?e ?hh with _ => _ end] =>
               destruct (env_popen_poll e hh); cbv beta iota zeta
           end;
      try (exists O; split; [lia | reflexivity]);
      try (exists 1%nat; split; [lia | reflexivity]).
    match goal with
    | |- context [polling_loop ?e ?nr ?l ?hh] =>
        destruct (IH (S start) hh) as (naps & Hnaps & Hsl);
        destruct (polling_loop e nr l hh) as [r t]
    end.
    exists (S naps). split; [lia|].
    unfold emitted in *. cbn [snd] in *.
    unfold sleep_seconds in *. rewrite !flat_map_app, Hsl. reflexivity.
Qed.

Lemma sleep_seconds_app (t1 t2 : list Event) :
  sleep_seconds (t1 ++ t2) = sleep_seconds t1 ++ sleep_seconds t2.
Proof. unfold sleep_seconds. apply flat_map_app. Qed.

Lemma generate_dataset_sleeps (env : Env) (system_prompt : string)
    (num_turns num_rows : Z) (is_sample : bool) (h : History) :
  exists naps,
    (naps <= total_steps)%nat
    /\ sleep_seconds
         (emitted (generate_dataset env system_prompt num_turns num_rows
                     is_sample h))
       = repeat (duration num_rows # Pos.of_nat total_steps) naps.
Proof.
  dataset_cases ltac:(fun e nr l hh =>
    destruct (polling_loop_sleeps e nr total_steps 0 hh)
      as (naps & Hle & Hsl)).
  all: unfold emitted in *; cbn [snd] in *.
  all: first
    [ exists naps; split; [exact Hle|];
      rewrite ?sleep_seconds_app, ?Hsl;
      cbn [sleep_seconds flat_map app]; rewrite ?app_nil_r; reflexivity
    | exists O; split; [apply Nat.le_0_l | reflexivity] ].
Qed.

Lemma total_seconds_repeat (q : Q) (n : nat) :
  (total_seconds (repeat q n) == inject_Z (Z.of_nat n) * q)%Q.
Proof.
  induction n as [|n IH].
  - simpl. unfold inject_Z. ring.
  - cbn [repeat total_seconds fold_right].
    change (fold_right Qplus 0%Q (repeat q n)) with (total_seconds (repeat q n)).
    rewrite IH, Nat2Z.inj_succ. unfold Z.succ. rewrite inject_Z_plus. ring.
Qed.

(** X11: the polling loop of [generate_dataset] sleeps at most 100 times,
    every time for [duration / 100] seconds, a positive time between 0.25
    and 24 seconds whatever the number of rows (zero and negative ones
    included); in all it never sleeps longer than the estimated duration. *)
Theorem generate_dataset_pace (env : Env) (system_prompt : string)
    (num_turns num_rows : Z) (is_sample : bool) (h : History) :
  let nap := duration num_rows # Pos.of_nat total_steps in
  let naps :=
    sleep_seconds
      (emitted (generate_dataset env system_prompt num_turns num_rows
                  is_sample h)) in
  (length naps <= total_steps)%nat
  /\ Forall (fun s => s = nap) naps
  /\ (25 # 100 <= nap)%Q /\ (nap <= 24)%Q
  /\ (total_seconds naps <= inject_Z (duration num_rows))%Q.
Proof.
  intros nap naps. subst naps.
  destruct (generate_dataset_sleeps env system_prompt num_turns num_rows
              is_sample h) as (n & Hn & ->).
  fold nap.
  assert (Hd : 25 <= duration num_rows <= 2400).
  { destruct (duration_values num_rows)
      as [H|[H|[H|[H|[H|[H|H]]]]]]; lia. }
  rewrite repeat_length. split; [exact Hn|]. split.
  { apply Forall_forall. intros s Hs. exact (repeat_spec _ _ _ Hs). }
  split; [|split].
  - subst nap. unfold Qle, total_steps. simpl. lia.
  - subst nap. unfold Qle, total_steps. simpl. lia.
  - rewrite total_seconds_repeat. subst nap.
    unfold total_steps in *. unfold Qle, Qmult, inject_Z. simpl. nia.
Qed.

(** ** The table the generation job returns *)

Lemma query_Ok_inv {A} (env : Env) (ev : Event) (answer : History -> A)
    (h : History) a t :
  query env ev answer h = (Ok a, t) -> a = answer h /\ t = [ev].
Proof.
  unfold query. destruct (env_outcome env h ev); intros H; inversion H; auto.
Qed.

(** The columns [df[[labels]]] keeps are those of [df] under one of the
    labels, cells included. *)
Lemma df_getitem_columns (labels : list string) (df out : DataFrame) :
  df_getitem labels df = Ok out ->
  forall name cells,
    In (name, cells) (df_columns out) <->
    In name labels /\ In (name, cells) (df_columns df).
Proof.
  unfold df_getitem. destruct (filter _ labels); [|discriminate].
  intros [= <-] name cells. cbn [df_columns].
  rewrite in_flat_map. unfold columns_labelled. split.
  - intros (l & Hl & Hin). apply filter_In in Hin as [Hin Heq].
    apply String.eqb_eq in Heq. simpl in Heq. subst l. now split.
  - intros [Hl Hin]. exists name. split; [assumption|].
    apply filter_In. split; [assumption | apply String.eqb_refl].
Qed.

(** X12: the table a run of [generate_dataset] returns is cut out of the
    item read from the queue, after every other call but the completion
    report: its columns are exactly the columns of the [train] split of the
    [default] configuration whose label was selected (prompt and completion
    when [num_turns == 1], messages otherwise), with their cells as the
    worker left them. *)
Theorem generate_dataset_returns_worker_table (env : Env)
    (system_prompt : string) (num_turns num_rows : Z) (is_sample : bool)
    (h : History) (dataframe : DataFrame) (t : list Event) :
  generate_dataset env system_prompt num_turns num_rows is_sample h
    = (Ok dataframe, t) ->
  exists (before : list Event) (config : DatasetDict) (train : Dataset),
    t = before ++ [EvQueueGet; EvProgress 1 "Dataset generation completed"]
    /\ dict_getitem "default" (env_queue_item env (h ++ before)) = Ok config
    /\ dict_getitem "train" config = Ok train
    /\ forall name cells,
         In (name, cells) (df_columns dataframe) <->
         In name (if num_turns =? 1 then ["prompt"; "completion"]
                  else ["messages"])
         /\ In (name, cells) (df_columns (to_pandas train)).
Proof.
  unfold generate_dataset. intros Hrun.
  apply bind_Ok_inv in Hrun as (? & t1 & ? & _ & Hrun & ->).
  apply bind_Ok_inv in Hrun as (? & t2 & ? & _ & Hrun & ->).
  apply bind_Ok_inv in Hrun as (? & t3 & ? & _ & Hrun & ->).
  apply bind_Ok_inv in Hrun as (distiset & t4 & ? & Hget & Hrun & ->).
  apply bind_Ok_inv in Hrun as (config & t5 & ? & Hconfig & Hrun & ->).
  apply bind_Ok_inv in Hrun as (train & t6 & ? & Htrain & Hrun & ->).
  apply bind_Ok_inv in Hrun as (outputs & t7 & ? & Hsel & Hrun & ->).
  apply bind_Ok_inv in Hrun as (? & t8 & ? & Hdone & Hret & ->).
  apply query_Ok_inv in Hget as [-> ->].
  apply lift_Ok_inv in Hconfig as [Hconfig ->].
  apply lift_Ok_inv in Htrain as [Htrain ->].
  apply lift_Ok_inv in Hsel as [Hsel ->].
  apply call_Ok_inv in Hdone as [_ ->].
  unfold ret in Hret. injection Hret as <- <-.
  exists (t1 ++ t2 ++ t3), config, train.
  split; [cbn [app]; rewrite <- !app_assoc; reflexivity|].
  split; [rewrite !app_assoc; exact Hconfig|].
  split; [exact Htrain|].
  intros name cells.
  destruct (num_turns =? 1);
    exact (df_getitem_columns _ _ _ Hsel name cells).
Qed.

Lemma generate_dataset_returns_worker_table_witness :
  let run :=
    generate_dataset (calm_env 1 sample_distiset)
      "You are a chemistry tutor." 1 3 false [] in
  result_of run
  = Ok (mkDataFrame [("prompt", [CellText "What is an acid?"]);
                     ("completion", [CellText "A proton donor."])])
  /\ exists (before : list Event) (config : DatasetDict) (train : Dataset),
       emitted run
       = before ++ [EvQueueGet; EvProgress 1 "Dataset generation completed"]
       /\ dict_getitem "default"
            (env_queue_item (calm_env 1 sample_distiset) ([] ++ before))
          = Ok config
       /\ dict_getitem "train" config = Ok train
       /\ forall name cells,
            In (name, cells)
              (df_columns
                 (mkDataFrame [("prompt", [CellText "What is an acid?"]);
                               ("completion", [CellText "A proton donor."])]))
            <->
            In name (if 1 =? 1 then ["prompt"; "completion"]
                     else ["messages"])
            /\ In (name, cells) (df_columns (to_pandas train)).
Proof.
  intros run. split; [reflexivity|].
  apply (generate_dataset_returns_worker_table (calm_env 1 sample_distiset)
           "You are a chemistry tutor." 1 3 false []).
  reflexivity.
Defined.

(** ** What the handlers leave alone *)

(** X13: [generate_dataset] and [generate_sample_dataset] never push to the
    hub and never call the text generation step; on a table they only
    report progress, sleep and deal with the worker process and its queue,
    and they never terminate the worker. *)
Theorem generation_leaves_hub_and_model_alone (env : Env)
    (DEFAULT_SYSTEM_PROMPTS : list string) (DEFAULT_DATASETS : list DataFrame)
    (system_prompt : string) (num_turns num_rows : Z) (is_sample : bool)
    (h : History) :
  let quiet e :=
    is_hub_request e = false /\ is_model_call e = false
    /\ e <> EvTerminate in
  Forall quiet
    (emitted (generate_dataset env system_prompt num_turns num_rows
                is_sample h))
  /\ Forall quiet
       (emitted (generate_sample_dataset env DEFAULT_SYSTEM_PROMPTS
                   DEFAULT_DATASETS system_prompt h)).
Proof.
  intros quiet.
  assert (Hrunner : forall turns rows sample,
            emits_only quiet
              (generate_dataset env system_prompt turns rows sample)).
  { intros turns rows sample. unfold generate_dataset, progress.
    repeat (apply emits_only_bind; [|intros ?]);
      try (apply emits_only_run_worker);
      try (apply emits_only_call); try (apply emits_only_query);
      auto with emits; subst quiet; simpl; intros;
      repeat split; congruence. }
  split; [apply Hrunner|].
  revert h. fold (emits_only quiet
    (generate_sample_dataset env DEFAULT_SYSTEM_PROMPTS DEFAULT_DATASETS
       system_prompt)).
  unfold generate_sample_dataset, progress. cbv zeta.
  assert (Hcall : forall q desc, emits_only quiet (call env (EvProgress q desc))).
  { intros q desc. apply emits_only_call. subst quiet. simpl.
    repeat split; congruence. }
  match goal with
  | |- context [if _ then _ else ?g] => set (generate := g)
  end.
  assert (Hgen : emits_only quiet generate).
  { subst generate.
    apply emits_only_bind; [apply Hcall | intros _].
    apply emits_only_bind; [apply Hrunner | intros result].
    apply emits_only_bind; [apply Hcall | intros _; apply emits_only_ret]. }
  destruct (py_in system_prompt DEFAULT_SYSTEM_PROMPTS); [|exact Hgen].
  apply emits_only_bind; [apply emits_only_lift | intros index].
  destruct (index <? length DEFAULT_DATASETS)%nat;
    [apply emits_only_lift | exact Hgen].
Qed.

(** X14: [generate_system_prompt] never touches the worker process, its
    queue or the hub, and never sleeps: its only calls are progress reports
    and calls to the text generation step. *)
Theorem generate_system_prompt_leaves_worker_alone (env : Env)
    (DEFAULT_DATASET_DESCRIPTIONS DEFAULT_SYSTEM_PROMPTS : list string)
    (PROMPT_CREATION_PROMPT description : string) (h : History) :
  Forall (fun e => is_progress e = true \/ is_model_call e = true)
    (emitted (generate_system_prompt env DEFAULT_DATASET_DESCRIPTIONS
                DEFAULT_SYSTEM_PROMPTS PROMPT_CREATION_PROMPT description h)).
Proof.
  revert h.
  fold (emits_only (fun e => is_progress e = true \/ is_model_call e = true)
    (generate_system_prompt env DEFAULT_DATASET_DESCRIPTIONS
       DEFAULT_SYSTEM_PROMPTS PROMPT_CREATION_PROMPT description)).
  unfold generate_system_prompt, progress. cbv zeta.
  match goal with
  | |- context [if _ then _ else ?g] => set (generate := g)
  end.
  assert (Hgen : emits_only
            (fun e => is_progress e = true \/ is_model_call e = true)
            generate).
  { subst generate.
    repeat (apply emits_only_bind; [|intros ?]);
      try (apply emits_only_call); try (apply emits_only_query);
      auto with emits; simpl; auto. }
  destruct (py_in description DEFAULT_DATASET_DESCRIPTIONS); [|exact Hgen].
  apply emits_only_bind; [apply emits_only_lift | intros index].
  destruct (index <? length DEFAULT_SYSTEM_PROMPTS)%nat;
    [apply emits_only_lift | exact Hgen].
Qed.

(** ** The sample generator, outside the presets *)

(** A run of [generate_sample_dataset] on a prompt that is no preset, read
    off the run of [generate_dataset] inside it. *)
Lemma generate_sample_dataset_run (env : Env)
    (DEFAULT_SYSTEM_PROMPTS : list string) (DEFAULT_DATASETS : list DataFrame)
    (system_prompt : string) (h : History) :
  ~ In system_prompt DEFAULT_SYSTEM_PROMPTS ->
  let announced :=
    EvProgress (1 # 10) "Initializing sample dataset generation" in
  let finished := EvProgress 1 "Sample dataset generated" in
  generate_sample_dataset env DEFAULT_SYSTEM_PROMPTS DEFAULT_DATASETS
    system_prompt h
  = match env_outcome env h announced with
    | Returns =>
        match generate_dataset env system_prompt 1 1 true (h ++ [announced])
        with
        | (Ok df, t1) =>
            (match env_outcome env (h ++ announced :: t1) finished with
             | Returns => Ok df
             | Raises x => Raise x
             | Blocks => Blocked
             end, announced :: t1 ++ [finished])
        | (Raise e, t1) => (Raise e, announced :: t1)
        | (Blocked, t1) => (Blocked, announced :: t1)
        end
    | Raises x => (Raise x, [announced])
    | Blocks => (Blocked, [announced])
    end.
Proof.
  intros Hnot announced finished. unfold generate_sample_dataset.
  rewrite (py_in_false _ _ Hnot).
  unfold bind, progress, call. fold announced finished.
  destruct (env_outcome env h announced); try reflexivity.
  destruct (generate_dataset _ _ _ _ _ _) as [[df|e|] t1]; try reflexivity.
  replace ((h ++ [announced]) ++ t1) with (h ++ announced :: t1)
    by (rewrite <- app_assoc; reflexivity).
  destruct (env_outcome env (h ++ announced :: t1) finished); reflexivity.
Qed.

(** X15: on a prompt that is no preset, the fractions
    [generate_sample_dataset] reports are 0.1, then those of the polling
    loop, 1/100, 2/100, ..., then 1.0 once for the end of the generation
    and once more for the end of the sample; a run that returns reports
    both.  As soon as the loop polls once the sequence goes down, from 0.1
    to 0.01. *)
Theorem generate_sample_dataset_progress (env : Env)
    (DEFAULT_SYSTEM_PROMPTS : list string) (DEFAULT_DATASETS : list DataFrame)
    (system_prompt : string) (h : History) :
  ~ In system_prompt DEFAULT_SYSTEM_PROMPTS ->
  let run :=
    generate_sample_dataset env DEFAULT_SYSTEM_PROMPTS DEFAULT_DATASETS
      system_prompt h in
  exists (polls : nat) (ending : list Q),
    progress_fractions (emitted run)
    = (1 # 10)%Q :: map fraction (seq 0 polls) ++ ending
    /\ (polls <= total_steps)%nat
    /\ (ending = [] \/ ending = [1%Q] \/ ending = [1%Q; 1%Q])
    /\ (forall df, result_of run = Ok df -> ending = [1%Q; 1%Q])
    /\ ((0 < polls)%nat ->
        exists rest,
          progress_fractions (emitted run)
          = (1 # 10)%Q :: (1 # 100)%Q :: rest).
Proof.
  intros Hnot run. subst run.
  rewrite (generate_sample_dataset_run env _ _ _ h Hnot).
  set (announced := EvProgress (1 # 10) "Initializing sample dataset generation").
  set (finished := EvProgress 1 "Sample dataset generated").
  destruct (env_outcome env h announced);
    [| exists O, []; repeat split; auto using Nat.le_0_l; try discriminate;
       intros Hpos; inversion Hpos ..].
  destruct (generate_dataset_fractions env system_prompt 1 1 true
              (h ++ [announced]))
    as (polls & completion & Hfr & Hle & Hshape & Hok).
  unfold emitted, result_of in *.
  assert (Hdown : forall ending,
            (0 < polls)%nat ->
            exists rest,
              (1 # 10)%Q :: map fraction (seq 0 polls) ++ ending
              = (1 # 10)%Q :: (1 # 100)%Q :: rest).
  { intros ending Hpos. destruct polls as [|polls]; [inversion Hpos|].
    eexists. reflexivity. }
  destruct (generate_dataset env system_prompt 1 1 true (h ++ [announced]))
    as [[df|e|] t1]; cbn [fst snd] in *.
  - exists polls, [1%Q; 1%Q].
    assert (Heq : progress_fractions (announced :: t1 ++ [finished])
                  = (1 # 10)%Q :: map fraction (seq 0 polls) ++ [1%Q; 1%Q]).
    { change (announced :: t1 ++ [finished])
        with ([announced] ++ t1 ++ [finished]).
      rewrite !progress_fractions_app, Hfr, (Hok df eq_refl).
      cbn [progress_fractions flat_map app announced finished].
      now rewrite <- app_assoc. }
    rewrite Heq. repeat split; auto.
  - exists polls, completion.
    assert (Heq : progress_fractions (announced :: t1)
                  = (1 # 10)%Q :: map fraction (seq 0 polls) ++ completion).
    { change (announced :: t1) with ([announced] ++ t1).
      now rewrite progress_fractions_app, Hfr. }
    rewrite Heq. repeat split; auto; try discriminate.
    destruct Hshape as [-> | ->]; auto.
  - exists polls, completion.
    assert (Heq : progress_fractions (announced :: t1)
                  = (1 # 10)%Q :: map fraction (seq 0 polls) ++ completion).
    { change (announced :: t1) with ([announced] ++ t1).
      now rewrite progress_fractions_app, Hfr. }
    rewrite Heq. repeat split; auto; try discriminate.
    destruct Hshape as [-> | ->]; auto.
Qed.

Lemma generate_sample_dataset_progress_witness :
  ~ In "You are a poet." sample_prompts
  /\ progress_fractions
       (emitted (generate_sample_dataset (calm_env 1 sample_distiset)
                   sample_prompts sample_datasets "You are a poet." []))
     = [(1 # 10)%Q; (1 # 100)%Q; 1%Q; 1%Q]
  /\ exists (polls : nat) (ending : list Q),
       progress_fractions
         (emitted (generate_sample_dataset (calm_env 1 sample_distiset)
                     sample_prompts sample_datasets "You are a poet." []))
       = (1 # 10)%Q :: map fraction (seq 0 polls) ++ ending
       /\ (polls <= total_steps)%nat
       /\ (ending = [] \/ ending = [1%Q] \/ ending = [1%Q; 1%Q])
       /\ (forall df,
             result_of (generate_sample_dataset (calm_env 1 sample_distiset)
                          sample_prompts sample_datasets "You are a poet." [])
             = Ok df ->
             ending = [1%Q; 1%Q])
       /\ ((0 < polls)%nat ->
           exists rest,
             progress_fractions
               (emitted (generate_sample_dataset (calm_env 1 sample_distiset)
                           sample_prompts sample_datasets "You are a poet."
                           []))
             = (1 # 10)%Q :: (1 # 100)%Q :: rest).
Proof.
  assert (Hnot : ~ In "You are a poet." sample_prompts)
    by (simpl; intros [H|[H|[]]]; discriminate).
  split; [exact Hnot | split; [reflexivity|]].
  exact (generate_sample_dataset_progress (calm_env 1 sample_distiset)
           sample_prompts sample_datasets "You are a poet." [] Hnot).
Defined.



(** ** The polling loop and the life of the worker *)

(** X17: when the first check finds the worker gone ([is_alive()] false, or
    an exit code from [poll()]), [generate_dataset] leaves the loop at
    once: it never sleeps and reports no fraction but that of completion. *)
Theorem generate_dataset_worker_gone (env : Env) (system_prompt : string)
    (num_turns num_rows : Z) (is_sample : bool) (h : History) :
  let started :=
    h ++ [EvQueueCreate;
          EvProcessCreate num_turns num_rows system_prompt is_sample;
          EvProcessStart] in
  env_is_alive env started = false
  \/ (exists code, env_popen_poll env (started ++ [EvIsAlive]) = Some code) ->
  let t :=
    emitted (generate_dataset env system_prompt num_turns num_rows
               is_sample h) in
  sleep_seconds t = []
  /\ (progress_fractions t = [] \/ progress_fractions t = [1%Q]).
Proof.
  intros started Hgone t. subst t.
  replace started
    with (((h ++ [EvQueueCreate])
           ++ [EvProcessCreate num_turns num_rows system_prompt is_sample])
          ++ [EvProcessStart]) in Hgone
    by (subst started; rewrite <- !app_assoc; reflexivity).
  clear started.
  unfold generate_dataset, run_worker, try_except.
  change (seq 0 total_steps) with (O :: seq 1 99).
  rewrite polling_loop_cons.
  unfold bind, query, progress, call, ret, raise, lift.
  env_cases.
  all: destruct Hgone as [Hdead | [code Hcode]];
    rewrite ?Hdead; try (destruct (env_is_alive env _));
    cbv beta iota zeta delta [negb]; env_cases;
    rewrite ?Hcode; cbv beta iota zeta.
  all: env_cases.
  all: repeat match goal with
         | |- context [is_Exception ?x] =>
             destruct (is_Exception x); cbv beta iota zeta
         | |- context [match dict_getitem ?k ?d with _ => _ end] =>
             destruct (dict_getitem k d); cbv beta iota zeta
         | |- context [if ?n =? 1 then _ else _] =>
             destruct (n =? 1); cbv beta iota zeta
         | |- context [match df_getitem ?k ?d with _ => _ end] =>
             destruct (df_getitem k d); cbv beta iota zeta
         end; env_cases.
  all: split; [reflexivity | first [left; reflexivity | right; reflexivity]].
Qed.

Lemma generate_dataset_worker_gone_witness :
  let run :=
    generate_dataset (calm_env 0 sample_distiset)
      "You are a chemistry tutor." 1 10 false [] in
  (env_is_alive (calm_env 0 sample_distiset)
     ([] ++ [EvQueueCreate;
             EvProcessCreate 1 10 "You are a chemistry tutor." false;
             EvProcessStart]) = false
   \/ exists code,
        env_popen_poll (calm_env 0 sample_distiset)
          (([] ++ [EvQueueCreate;
                   EvProcessCreate 1 10 "You are a chemistry tutor." false;
                   EvProcessStart]) ++ [EvIsAlive]) = Some code)
  /\ emitted run
     = [EvQueueCreate;
        EvProcessCreate 1 10 "You are a chemistry tutor." false;
        EvProcessStart; EvIsAlive; EvJoin; EvQueueGet;
        EvProgress 1 "Dataset generation completed"]
  /\ sleep_seconds (emitted run) = []
  /\ (progress_fractions (emitted run) = []
      \/ progress_fractions (emitted run) = [1%Q]).
Proof.
  intros run.
  assert (Hgone :
    env_is_alive (calm_env 0 sample_distiset)
      ([] ++ [EvQueueCreate;
              EvProcessCreate 1 10 "You are a chemistry tutor." false;
              EvProcessStart]) = false
    \/ exists code,
         env_popen_poll (calm_env 0 sample_distiset)
           (([] ++ [EvQueueCreate;
                    EvProcessCreate 1 10 "You are a chemistry tutor." false;
                    EvProcessStart]) ++ [EvIsAlive]) = Some code)
    by (left; reflexivity).
  split; [exact Hgone | split; [reflexivity|]].
  exact (generate_dataset_worker_gone (calm_env 0 sample_distiset)
           "You are a chemistry tutor." 1 10 false [] Hgone).
Defined.

Section Patient.

Variable env : Env.
Hypothesis all_return : forall hh ev, env_outcome env hh ev = Returns.
Hypothesis stays_alive : forall hh, env_is_alive env hh = true.
Hypothesis no_exit_code : forall hh, env_popen_poll env hh = None.

Lemma polling_loop_patient (num_rows : Z) (n start : nat) (h : History) :
  exists t,
    polling_loop env num_rows (seq start n) h = (Ok tt, t)
    /\ progress_fractions t = map fraction (seq start n)
    /\ sleep_seconds t
       = repeat (duration num_rows # Pos.of_nat total_steps) n.
Proof using all_return stays_alive no_exit_code.
  revert start h. induction n as [|n IH]; intros start h.
  - exists []. repeat split.
  - change (seq start (S n)) with (start :: seq (S start) n).
    rewrite polling_loop_cons.
    unfold bind, query, progress, call, ret.
    repeat (rewrite ?all_return, ?stays_alive, ?no_exit_code;
            cbv beta iota zeta delta [negb]).
    match goal with
    | |- context [polling_loop env num_rows ?l ?hh] =>
        destruct (IH (S start) hh) as (t & Hrun & Hfr & Hsl)
    end.
    rewrite Hrun. eexists. split; [reflexivity|].
    rewrite !progress_fractions_app, !sleep_seconds_app, Hfr, Hsl.
    split; reflexivity.
Qed.

(** X18: when the worker stays alive and no call raises or blocks, the
    loop of [generate_dataset] runs all of its 100 steps and no more: it
    reports 1/100, ..., 100/100, sleeps 100 times, each time for
    [duration / 100] seconds, and then joins the worker once, however long
    that takes; there is no timeout and the worker is not terminated. *)
Theorem generate_dataset_patient (system_prompt : string)
    (num_turns num_rows : Z) (is_sample : bool) (h : History) :
  let t :=
    emitted (generate_dataset env system_prompt num_turns num_rows
               is_sample h) in
  (exists completion,
     progress_fractions t = map fraction (seq 0 total_steps) ++ completion)
  /\ sleep_seconds t
     = repeat (duration num_rows # Pos.of_nat total_steps) total_steps
  /\ count_events is_join t = 1%nat
  /\ existsb (fun e => match e with EvTerminate => true | _ => false end) t
     = false.
Proof using all_return stays_alive no_exit_code.
  intros t.
  assert (Ht : exists loop completion,
    t = [EvQueueCreate;
         EvProcessCreate num_turns num_rows system_prompt is_sample;
         EvProcessStart] ++ loop ++ EvJoin :: EvQueueGet :: completion
    /\ progress_fractions loop = map fraction (seq 0 total_steps)
    /\ sleep_seconds loop
       = repeat (duration num_rows # Pos.of_nat total_steps) total_steps
    /\ Forall (fun e => is_loop_event e = true) loop
    /\ (completion = []
        \/ completion = [EvProgress 1 "Dataset generation completed"])).
  { subst t.
    unfold generate_dataset, run_worker, try_except, bind, query, progress,
      call, ret, raise, lift.
    repeat (rewrite ?all_return; cbv beta iota zeta).
    match goal with
    | |- context [polling_loop env num_rows ?l ?hh] =>
        destruct (polling_loop_patient num_rows total_steps 0 hh)
          as (loop & Hrun & Hfr & Hsl);
        pose proof (polling_loop_events env num_rows l hh) as Hloop
    end.
    rewrite Hrun in *. unfold emitted in Hloop. cbn [snd] in Hloop.
    cbv beta iota zeta.
    repeat (rewrite ?all_return; cbv beta iota zeta).
    repeat match goal with
           | |- context [match dict_getitem ?k ?d with _ => _ end] =>
               destruct (dict_getitem k d); cbv beta iota zeta
           | |- context [if ?n =? 1 then _ else _] =>
               destruct (n =? 1); cbv beta iota zeta
           | |- context [match df_getitem ?k ?d with _ => _ end] =>
               destruct (df_getitem k d); cbv beta iota zeta
           end;
      repeat (rewrite ?all_return; cbv beta iota zeta).
    all: unfold emitted; cbn [snd].
    all: exists loop.
    all: first
      [ exists [EvProgress 1 "Dataset generation completed"];
        split; [cbn [app]; rewrite ?app_nil_r, <- ?app_assoc;
                cbn [app]; reflexivity | auto]
      | exists [];
        split; [cbn [app]; rewrite ?app_nil_r, <- ?app_assoc;
                cbn [app]; reflexivity | auto] ]. }
  destruct Ht as (loop & completion & -> & Hfr & Hsl & Hloop & Hshape).
  assert (Hnaps : sleep_seconds
            ([EvQueueCreate;
              EvProcessCreate num_turns num_rows system_prompt is_sample;
              EvProcessStart] ++ loop ++ EvJoin :: EvQueueGet :: completion)
            = repeat (duration num_rows # Pos.of_nat total_steps) total_steps).
  { rewrite !sleep_seconds_app, Hsl.
    destruct Hshape as [-> | ->]; cbn [sleep_seconds flat_map app];
      now rewrite app_nil_r. }
  split; [|split; [exact Hnaps | split]].
  - exists (progress_fractions completion).
    rewrite !progress_fractions_app, Hfr.
    change (EvJoin :: EvQueueGet :: completion)
      with ([EvJoin; EvQueueGet] ++ completion).
    rewrite progress_fractions_app. reflexivity.
  - rewrite !count_events_app.
    rewrite (count_events_loop is_join loop) by
      (try assumption; intros [ ]; simpl; congruence).
    destruct Hshape as [-> | ->]; reflexivity.
  - rewrite !existsb_app. cbn [existsb]. rewrite !orb_false_l.
    replace (existsb _ loop) with false.
    + destruct Hshape as [-> | ->]; reflexivity.
    + symmetry. apply Forall_existsb_false.
      eapply Forall_impl; [|exact Hloop].
      intros [ ]; simpl; congruence.
Qed.

End Patient.

Lemma generate_dataset_patient_witness :
  (forall hh ev, env_outcome slow_worker_env hh ev = Returns)
  /\ (forall hh, env_is_alive slow_worker_env hh = true)
  /\ (forall hh, env_popen_poll slow_worker_env hh = None)
  /\ sleep_seconds
       (emitted (generate_dataset slow_worker_env
                   "You are a chemistry tutor." 1 10 false []))
     = repeat (duration 10 # Pos.of_nat total_steps) total_steps.
Proof.
  assert (H1 : forall hh ev, env_outcome slow_worker_env hh ev = Returns)
    by reflexivity.
  assert (H2 : forall hh, env_is_alive slow_worker_env hh = true)
    by reflexivity.
  assert (H3 : forall hh, env_popen_poll slow_worker_env hh = None)
    by reflexivity.
  split; [exact H1 | split; [exact H2 | split; [exact H3|]]].
  exact (proj1 (proj2 (generate_dataset_patient slow_worker_env H1 H2 H3
                         "You are a chemistry tutor." 1 10 false []))).
Defined.
